(** * First-Agentica: section segmentation and report synthesis

    A shallow embedding of
      - [FileParserService.extractSections] / [FileParserService.isHeader]
        (providers/report/FileParserService.ts), and
      - [ReportGeneratorService.generateReport] /
        [ReportGeneratorService.generateContentForTemplate]
        (controllers/report/ReportController.ts),
    together with the data types of api/structures/report/IReport.ts.

    JavaScript strings are sequences of UTF-16 code units; [length],
    [includes], [trim], [split] and regular expressions without the [u]
    flag all work on code units, so a string is modelled as [list N]. *)

From Stdlib Require Import NArith ZArith Lia Bool Ascii Sorted Permutation.
From Stdlib Require Strings.String Numbers.DecimalString.
From stdpp Require Import gmap list strings functions.

Local Open Scope N_scope.

(** ** JavaScript strings *)

Module JS.

Abbreviation jsstring := (list N).

(** Decoding of a UTF-8 byte sequence (the bytes of a literal of this file)
    into UTF-16 code units. Code points above U+FFFF become a surrogate
    pair. *)
Fixpoint utf16_of_bytes (bs : list N) : jsstring :=
  match bs with
  | [] => []
  | b0 :: r0 =>
      if b0 <? 128 then b0 :: utf16_of_bytes r0
      else if b0 <? 224 then
        match r0 with
        | b1 :: r1 => ((b0 mod 32) * 64 + b1 mod 64) :: utf16_of_bytes r1
        | [] => []
        end
      else if b0 <? 240 then
        match r0 with
        | b1 :: b2 :: r2 =>
            ((b0 mod 16) * 4096 + (b1 mod 64) * 64 + b2 mod 64)
              :: utf16_of_bytes r2
        | _ => []
        end
      else
        match r0 with
        | b1 :: b2 :: b3 :: r3 =>
            let cp := (b0 mod 8) * 262144 + (b1 mod 64) * 4096
                      + (b2 mod 64) * 64 + b3 mod 64 in
            let v := cp - 65536 in
            (55296 + v / 1024) :: (56320 + v mod 1024) :: utf16_of_bytes r3
        | _ => []
        end
  end.

Definition lit (s : string) : jsstring :=
  utf16_of_bytes (List.map N_of_ascii (String.list_ascii_of_string s)).

Arguments lit s%_string.

(** ECMAScript WhiteSpace and LineTerminator code units: the set removed by
    [String.prototype.trim] and matched by the regular expression class
    [\s]. *)
Definition isWhiteSpace (c : N) : bool :=
  ((9 <=? c) && (c <=? 13)) || (c =? 32) || (c =? 160) || (c =? 5760)
  || ((8192 <=? c) && (c <=? 8202)) || (c =? 8232) || (c =? 8233)
  || (c =? 8239) || (c =? 8287) || (c =? 12288) || (c =? 65279).

(** LineTerminator code units: the ones [.] does not match. *)
Definition isLineTerminator (c : N) : bool :=
  (c =? 10) || (c =? 13) || (c =? 8232) || (c =? 8233).

Fixpoint dropWhile (p : N -> bool) (s : jsstring) : jsstring :=
  match s with
  | [] => []
  | c :: s' => if p c then dropWhile p s' else s
  end.

(** [s.trim()] *)
Definition trim (s : jsstring) : jsstring :=
  rev (dropWhile isWhiteSpace (rev (dropWhile isWhiteSpace s))).

(** Truthiness of a string value: the empty string is the only falsy one. *)
Definition truthy (s : jsstring) : bool :=
  match s with [] => false | _ :: _ => true end.

(** [s.split('\n')]: never empty, the empty string splits into [[""]]. *)
Fixpoint split_nl (s : jsstring) : list jsstring :=
  match s with
  | [] => [[]]
  | c :: s' =>
      if c =? 10 then [] :: split_nl s'
      else match split_nl s' with
           | l :: ls => (c :: l) :: ls
           | [] => [[c]]
           end
  end.

Fixpoint startsWith (p s : jsstring) : bool :=
  match p, s with
  | [], _ => true
  | _ :: _, [] => false
  | a :: p', b :: s' => (a =? b) && startsWith p' s'
  end.

(** [s.includes(k)] *)
Fixpoint includes (k s : jsstring) : bool :=
  startsWith k s ||
  match s with
  | [] => false
  | _ :: s' => includes k s'
  end.

(** [parts.join(sep)] *)
Fixpoint join (sep : jsstring) (parts : list jsstring) : jsstring :=
  match parts with
  | [] => []
  | [p] => p
  | p :: ps => p ++ sep ++ join sep ps
  end.

(** *** Regular expressions

    Every pattern of [isHeader] is a sequence of quantified character
    classes, anchored at the start of the input and possibly at its end
    (no flags: [^] and [$] are the ends of the input). A quantified class
    is matched greedily: [many] first takes one more code unit, and hands
    over to the rest of the pattern, [k], when that fails and the lower
    bound is met. *)

Record atom := Atom {
  cls : N -> bool;
  lo : nat;
  hi : option nat     (* [None]: no upper bound *)
}.

Definition one (p : N -> bool) : atom := Atom p 1 (Some 1%nat).
Definition plus (p : N -> bool) : atom := Atom p 1 None.
Definition star (p : N -> bool) : atom := Atom p 0 None.
Definition rep (p : N -> bool) (m n : nat) : atom := Atom p m (Some n).

Definition room (h : option nat) : bool :=
  match h with Some O => false | _ => true end.

Definition less (h : option nat) : option nat :=
  match h with Some n => Some (Nat.pred n) | None => None end.

Definition isZero (n : nat) : bool :=
  match n with O => true | S _ => false end.

Fixpoint many (p : N -> bool) (l : nat) (h : option nat)
    (k : jsstring -> bool) (s : jsstring) : bool :=
  match s with
  | c :: s' =>
      if p c && room h then
        if many p (Nat.pred l) (less h) k s' then true
        else if isZero l then k s else false
      else if isZero l then k s else false
  | [] => if isZero l then k [] else false
  end.

Fixpoint matchSeq (atoms : list atom) (fin : jsstring -> bool)
    (s : jsstring) : bool :=
  match atoms with
  | [] => fin s
  | a :: rest => many (cls a) (lo a) (hi a) (matchSeq rest fin) s
  end.

Record RegExp := {
  body : list atom;      (* what follows the leading [^] *)
  toEnd : bool           (* a trailing [$] *)
}.

(** [pattern.test(s)] for a pattern that starts with [^]. *)
Definition test (r : RegExp) (s : jsstring) : bool :=
  matchSeq (body r) (fun rest => if toEnd r then negb (truthy rest) else true) s.

Definition chr (a : N) : N -> bool := fun c => c =? a.
Definition range (a b : N) : N -> bool := fun c => (a <=? c) && (c <=? b).
Definition dot : N -> bool := fun c => negb (isLineTerminator c).
Definition digit : N -> bool := range 48 57.
Definition oneOf (l : list N) : N -> bool := fun c => existsb (N.eqb c) l.

End JS.

Import JS.

(** ** Data model (api/structures/report/IReport.ts) *)

Inductive SectionType := header | content | table | list_ | image.

Inductive FileType := pdf | docx.

Inductive ReportStatus := pending | processing | completed | failed.

Inductive ResponseStatus := started | rs_completed | rs_failed.

(** [IReport.ITemplateSection]; [placeholder] is optional, [order] is a
    number (here an integer). *)
Record ITemplateSection := {
  title : jsstring;
  placeholder : option jsstring;
  order : Z;
  type : SectionType
}.

#[global] Instance SectionType_eq_dec : EqDecision SectionType.
Proof. solve_decision. Defined.

#[global] Instance ITemplateSection_eq_dec : EqDecision ITemplateSection.
Proof. solve_decision. Defined.

(** ** FileParserService *)

Module FileParserService.

(** The six entries of [headerPatterns], in source order. *)
Definition headerPatterns : list RegExp := [
  (* /^\d+\.\s+.+/ *)
  {| body := [plus digit; one (chr 46); plus isWhiteSpace; plus dot];
     toEnd := false |};
  (* /^[가-힣]\.\s+.+/ *)
  {| body := [one (range 44032 55203); one (chr 46); plus isWhiteSpace;
              plus dot];
     toEnd := false |};
  (* /^[A-Z]\.\s+.+/ *)
  {| body := [one (range 65 90); one (chr 46); plus isWhiteSpace; plus dot];
     toEnd := false |};
  (* /^#{1,6}\s+.+/ *)
  {| body := [rep (chr 35) 1 6; plus isWhiteSpace; plus dot];
     toEnd := false |};
  (* /^.{1,50}:$/ *)
  {| body := [rep dot 1 50; one (chr 58)]; toEnd := true |};
  (* /^[[\]【】]\s*.+\s*[[\]】]/ *)
  {| body := [one (oneOf [91; 93; 12304; 12305]); star isWhiteSpace;
              plus dot; star isWhiteSpace; one (oneOf [91; 93; 12305])];
     toEnd := false |}
].

(** [line.length] *)
Definition strlen (s : jsstring) : N := N.of_nat (length s).

(** [isHeader]. [&&] binds tighter than [||]: the length test guards the
    first keyword only. *)
Definition isHeader (line : jsstring) : bool :=
  existsb (fun pattern => test pattern line) headerPatterns ||
  ((((((strlen line <? 100) && includes (lit "목표") line)
      || includes (lit "개요") line)
     || includes (lit "배경") line)
    || includes (lit "결론") line)
   || includes (lit "요약") line).

(** The template literal [`[${trimmedLine} 내용을 입력하세요]`]. *)
Definition defaultPlaceholder (trimmedLine : jsstring) : jsstring :=
  lit "[" ++ trimmedLine ++ lit " 내용을 입력하세요]".

(** [!currentSection.placeholder]: true for [undefined] and for [""]. *)
Definition falsyPlaceholder (p : option jsstring) : bool :=
  match p with
  | None => true
  | Some s => negb (truthy s)
  end.

(** The variables the loop of [extractSections] updates. *)
Record Scan := {
  sections : list ITemplateSection;
  currentSection : option ITemplateSection;
  nextOrder : Z
}.

Definition scan0 : Scan :=
  {| sections := []; currentSection := None; nextOrder := 0 |}.

(** [sections.push(currentSection)] under [if (currentSection)]. *)
Definition pushCurrent (st : Scan) : list ITemplateSection :=
  match currentSection st with
  | Some c => sections st ++ [c]
  | None => sections st
  end.

(** One iteration of [for (const line of lines)]. *)
Definition scanLine (st : Scan) (line : jsstring) : Scan :=
  let trimmedLine := trim line in
  if isHeader trimmedLine then
    {| sections := pushCurrent st;
       currentSection :=
         Some {| title := trimmedLine;
                 placeholder := Some (defaultPlaceholder trimmedLine);
                 order := nextOrder st;
                 type := header |};
       nextOrder := (nextOrder st + 1)%Z |}
  else
    match currentSection st with
    | Some c =>
        if truthy trimmedLine then
          {| sections := sections st;
             currentSection :=
               Some {| title := title c;
                       placeholder :=
                         if falsyPlaceholder (placeholder c)
                         then Some trimmedLine else placeholder c;
                       order := order c;
                       type := content |};
             nextOrder := nextOrder st |}
        else st
    | None => st
    end.

Definition defaultSection : ITemplateSection :=
  {| title := lit "전체 문서";
     placeholder := Some (lit "[보고서 내용을 입력하세요]");
     order := 0;
     type := content |}.

(** [content.split('\n').filter(line => line.trim())] *)
Definition nonBlankLines (text : jsstring) : list jsstring :=
  List.filter (fun line => truthy (trim line)) (split_nl text).

Definition extractSections (text : jsstring) : list ITemplateSection :=
  let lines := nonBlankLines text in
  let sections := pushCurrent (fold_left scanLine lines scan0) in
  if (length sections =? 0)%nat then [defaultSection] else sections.

End FileParserService.

(** ** Templates, reports, requests and responses *)

(** Template objects are shared by reference between the templates
    registry and every report generated from them, and
    [generateContentForTemplate] sorts [template.sections] in place, so
    templates live in an object store and are named by reference. *)
Abbreviation ref := positive.

Module ITemplate.
Record t := {
  filename : jsstring;
  type : FileType;
  content : jsstring;
  sections : list ITemplateSection
}.
End ITemplate.

Module IReport.
Record t := {
  id : jsstring;
  title : jsstring;
  template : ref;
  content : jsstring;
  status : ReportStatus;
  created_at : jsstring;
  completed_at : option jsstring
}.
End IReport.

Module IGenerateResponse.
Record t := {
  reportId : jsstring;
  status : ResponseStatus;
  content : option jsstring;
  error : option jsstring
}.
End IGenerateResponse.

(** ** JSON.stringify

    The values a [Record<string, any>] context can hold, as far as
    [JSON.stringify] tells them apart. A [JNum] is an integer whose
    magnitude is below 2^53, which [Number::toString] prints in plain
    decimal. A [JObj] lists its own enumerable properties in enumeration
    order. A [JThrowing] is a value at which the serializer throws an
    [Error] of its own making or of the value's: an object that contains
    itself, or one whose [toJSON] method or getter throws; [message] is
    the message of that error. *)
Record SafeInteger := {
  value : Z;
  safe : Is_true (Z.abs value <? 9007199254740992)%Z
}.

#[warnings="-register-all"]
Inductive JsValue :=
| JNull
| JBool (b : bool)
| JNum (n : SafeInteger)
| JStr (s : jsstring)
| JBigInt (n : Z)
| JThrowing (message : jsstring)
| JArr (items : list JsValue)
| JObj (props : list (jsstring * JsValue)).

(** A completion: a value, or a thrown [Error] with its [message]. *)
Inductive Completion (A : Type) :=
| Normal (a : A)
| Throw (message : jsstring).

Arguments Normal {A} a.
Arguments Throw {A} message.

#[global] Instance Completion_bind : MBind Completion :=
  fun A B k c =>
    match c with
    | Normal a => k a
    | Throw m => Throw m
    end.

#[global] Instance Completion_ret : MRet Completion := @Normal.

Module JSON.

Definition hexDigit (n : N) : N := if n <? 10 then 48 + n else 87 + n.

(** [\uXXXX] with lower-case hexadecimal digits. *)
Definition unicodeEscape (c : N) : jsstring :=
  [92; 117; hexDigit (c / 4096 mod 16); hexDigit (c / 256 mod 16);
   hexDigit (c / 16 mod 16); hexDigit (c mod 16)].

Definition isHighSurrogate (c : N) : bool := (55296 <=? c) && (c <=? 56319).
Definition isLowSurrogate (c : N) : bool := (56320 <=? c) && (c <=? 57343).

Definition escapeUnit (c : N) : jsstring :=
  if c =? 8 then [92; 98]
  else if c =? 9 then [92; 116]
  else if c =? 10 then [92; 110]
  else if c =? 12 then [92; 102]
  else if c =? 13 then [92; 114]
  else if c =? 34 then [92; 34]
  else if c =? 92 then [92; 92]
  else if (c <? 32) || isHighSurrogate c || isLowSurrogate c
       then unicodeEscape c
  else [c].

(** The characters between the quotes of QuoteJSONString: it walks code
    points, so a well-formed surrogate pair is copied and a lone surrogate
    is escaped. *)
Fixpoint quoteBody (s : jsstring) : jsstring :=
  match s with
  | [] => []
  | c :: s' =>
      match s' with
      | d :: s'' =>
          if isHighSurrogate c && isLowSurrogate d
          then c :: d :: quoteBody s''
          else escapeUnit c ++ quoteBody s'
      | [] => escapeUnit c
      end
  end.

Definition quote (s : jsstring) : jsstring := [34] ++ quoteBody s ++ [34].

(** [Number::toString] on a safe integer: its decimal digits, behind a
    minus sign when it is negative. *)
Definition numberToString (n : SafeInteger) : jsstring :=
  List.map N_of_ascii
    (String.list_ascii_of_string
       (DecimalString.NilZero.string_of_int (Z.to_int (value n)))).

(** SerializeJSONProperty with a non-empty gap; [indent] is the current
    indentation. Reaching a BigInt throws a TypeError; reaching a
    [JThrowing] throws its error. Members are serialized in order, so the
    first of them to throw decides. *)
Fixpoint serialize (gap indent : jsstring) (v : JsValue) : Completion jsstring :=
  match v with
  | JNull => Normal (lit "null")
  | JBool true => Normal (lit "true")
  | JBool false => Normal (lit "false")
  | JNum n => Normal (numberToString n)
  | JStr s => Normal (quote s)
  | JBigInt _ => Throw (lit "Do not know how to serialize a BigInt")
  | JThrowing message => Throw message
  | JArr items =>
      let stepback := indent in
      let indent := indent ++ gap in
      partial ←
        (fix each (l : list JsValue) : Completion (list jsstring) :=
           match l with
           | [] => Normal []
           | x :: l' =>
               strP ← serialize gap indent x;
               rest ← each l';
               Normal (strP :: rest)
           end) items;
      match partial with
      | [] => Normal (lit "[]")
      | _ =>
          Normal (lit "[" ++ [10] ++ indent
                  ++ join (lit "," ++ [10] ++ indent) partial
                  ++ [10] ++ stepback ++ lit "]")
      end
  | JObj props =>
      let stepback := indent in
      let indent := indent ++ gap in
      partial ←
        (fix each (l : list (jsstring * JsValue)) : Completion (list jsstring) :=
           match l with
           | [] => Normal []
           | (P, x) :: l' =>
               strP ← serialize gap indent x;
               rest ← each l';
               Normal ((quote P ++ lit ": " ++ strP) :: rest)
           end) props;
      match partial with
      | [] => Normal (lit "{}")
      | _ =>
          Normal (lit "{" ++ [10] ++ indent
                  ++ join (lit "," ++ [10] ++ indent) partial
                  ++ [10] ++ stepback ++ lit "}")
      end
  end.

(** [JSON.stringify(value, null, 2)] *)
Definition stringify (value : JsValue) : Completion jsstring :=
  serialize (lit "  ") [] value.

End JSON.

(** ** ReportGeneratorService *)

(** The process state the service works on: the template objects, and the
    two registries the controller hands to the service. *)
Record Store := {
  objects : ref -> ITemplate.t;
  templates : gmap jsstring ref;
  reports : gmap jsstring IReport.t
}.

(** What one call of [generateReport] obtains from its environment:
    [uuidv4()], and the three readings of the clock in program order. *)
Record Ambient := {
  uuid : jsstring;
  createdAt : jsstring;       (* new Date().toISOString() *)
  localeNow : jsstring;       (* new Date().toLocaleString() *)
  completedAt : jsstring      (* new Date().toISOString() *)
}.

Record Request := {
  templateId : jsstring;
  req_title : jsstring;
  prompt : jsstring;
  context : option (list (jsstring * JsValue))
}.

Module ReportGeneratorService.

Definition nl : jsstring := [10].

(** [`${x}`] for an optional string: a missing one prints as "undefined". *)
Definition show (x : option jsstring) : jsstring :=
  match x with
  | Some s => s
  | None => lit "undefined"
  end.

(** [Array.prototype.sort] with the comparator [(a, b) => a.order - b.order]:
    the comparator is a consistent ordering of integers, for which the
    language requires the stable ascending arrangement. [insertByOrder]
    puts a section before the first later one whose [order] is not
    smaller. *)
Fixpoint insertByOrder (a : ITemplateSection) (l : list ITemplateSection)
    : list ITemplateSection :=
  match l with
  | [] => [a]
  | b :: l' =>
      if (order a - order b <=? 0)%Z then a :: b :: l'
      else b :: insertByOrder a l'
  end.

Definition sortByOrder (l : list ITemplateSection) : list ITemplateSection :=
  foldr insertByOrder [] l.

(** The template literal assigned to [systemPrompt]. The string is not
    used afterwards; building it can throw. *)
Definition systemPrompt (template : ITemplate.t) (userPrompt : jsstring)
    (context : option (list (jsstring * JsValue))) : Completion jsstring :=
  extra ←
    match context with
    | Some c =>
        json ← JSON.stringify (JObj c);
        mret (lit "추가 컨텍스트: " ++ json)
    | None => mret []
    end;
  mret
    (lit "당신은 전문적인 비즈니스 보고서 작성자입니다. 
주어진 템플릿 구조에 맞춰 사용자의 요청에 따라 보고서를 작성해주세요.

템플릿 구조:
" ++ join nl
       (List.map
          (fun section =>
             lit "- " ++ title section ++ lit ": "
             ++ show (placeholder section))
          (ITemplate.sections template))
     ++ lit "

원본 템플릿 내용:
" ++ ITemplate.content template
     ++ lit "

작성 지침:
1. 각 섹션별로 상세하고 전문적인 내용을 작성하세요
2. 비즈니스 문서에 적합한 격식 있는 언어를 사용하세요
3. 구체적인 데이터나 예시를 포함하세요
4. 마크다운 형식으로 작성하세요
5. 각 섹션은 명확하게 구분되어야 합니다

사용자 요청: " ++ userPrompt ++ nl ++ extra
     ++ lit "

위 정보를 바탕으로 템플릿 구조에 맞는 완성된 보고서를 작성해주세요.").

(** What one iteration of the loop appends to [fullContent]. *)
Definition sectionBlock (userPrompt : jsstring) (section : ITemplateSection)
    : jsstring :=
  (lit "## " ++ title section ++ nl ++ nl)
  ++ (match type section with
      | header => lit "### " ++ title section ++ lit " 상세" ++ nl ++ nl
      | _ => []
      end)
  ++ (show (placeholder section) ++ nl ++ nl)
  ++ (match type section with
      | content =>
          lit "[" ++ userPrompt ++ lit "와 관련된 " ++ title section
          ++ lit " 내용이 여기에 작성됩니다.]" ++ nl ++ nl
      | table =>
          lit "| 항목 | 내용 | 비고 |" ++ nl
          ++ lit "|------|------|------|" ++ nl
          ++ lit "| 예시1 | 데이터1 | 설명1 |" ++ nl
          ++ lit "| 예시2 | 데이터2 | 설명2 |" ++ nl ++ nl
      | list_ =>
          lit "- 첫 번째 항목" ++ nl ++ lit "- 두 번째 항목" ++ nl
          ++ lit "- 세 번째 항목" ++ nl ++ nl
      | _ => []
      end).

Definition setSections (t : ITemplate.t) (l : list ITemplateSection)
    : ITemplate.t :=
  {| ITemplate.filename := ITemplate.filename t;
     ITemplate.type := ITemplate.type t;
     ITemplate.content := ITemplate.content t;
     ITemplate.sections := l |}.

(** [generateContentForTemplate]: the result and the template objects
    afterwards. [template.sections.sort(...)] sorts the array of the
    template object itself and the loop then walks that array. *)
Definition generateContentForTemplate (env : Ambient) (template : ref)
    (userPrompt : jsstring) (context : option (list (jsstring * JsValue)))
    (objs : ref -> ITemplate.t) : Completion jsstring * (ref -> ITemplate.t) :=
  let t := objs template in
  let fullContent :=
    lit "# " ++ ITemplate.filename t ++ lit "에 기반한 보고서" ++ nl ++ nl in
  match systemPrompt t userPrompt context with
  | Throw m => (Throw m, objs)
  | Normal _ =>
      let sorted := sortByOrder (ITemplate.sections t) in
      let objs' := <[template := setSections t sorted]> objs in
      let fullContent :=
        fold_left (fun acc section => acc ++ sectionBlock userPrompt section)
          sorted fullContent in
      let fullContent :=
        fullContent ++ nl ++ lit "---" ++ nl ++ lit "**보고서 생성 완료**: "
        ++ localeNow env ++ nl in
      let fullContent :=
        fullContent ++ lit "**기반 템플릿**: " ++ ITemplate.filename t ++ nl in
      (Normal fullContent, objs')
  end.

Definition failure (message : jsstring) : IGenerateResponse.t :=
  {| IGenerateResponse.reportId := [];
     IGenerateResponse.status := rs_failed;
     IGenerateResponse.content := None;
     IGenerateResponse.error := Some message |}.

(** [generateReport]: the response and the store afterwards. Everything
    thrown inside the [try] is an [Error] and ends in the [catch], which
    answers with its message and leaves the store as it is then. *)
Definition generateReport (env : Ambient) (request : Request) (st : Store)
    : IGenerateResponse.t * Store :=
  match templates st !! templateId request with
  | None => (failure (lit "Template not found"), st)
  | Some template =>
      let reportId := uuid env in
      let report :=
        {| IReport.id := reportId;
           IReport.title := req_title request;
           IReport.template := template;
           IReport.content := [];
           IReport.status := processing;
           IReport.created_at := createdAt env;
           IReport.completed_at := None |} in
      let reports1 := <[reportId := report]> (reports st) in
      match generateContentForTemplate env template (prompt request)
              (context request) (objects st) with
      | (Normal generatedContent, objs) =>
          let report :=
            {| IReport.id := reportId;
               IReport.title := req_title request;
               IReport.template := template;
               IReport.content := generatedContent;
               IReport.status := completed;
               IReport.created_at := createdAt env;
               IReport.completed_at := Some (completedAt env) |} in
          ({| IGenerateResponse.reportId := reportId;
              IGenerateResponse.status := rs_completed;
              IGenerateResponse.content := Some generatedContent;
              IGenerateResponse.error := None |},
           {| objects := objs;
              templates := templates st;
              reports := <[reportId := report]> reports1 |})
      | (Throw message, objs) =>
          (failure message,
           {| objects := objs;
              templates := templates st;
              reports := reports1 |})
      end
  end.

End ReportGeneratorService.

(** ** ReportController: reading the registries *)

Module ReportController.

(** [getReport]: [this.reports.get(id) || null]. A stored report is an
    object, so only a missing one gives [null]. *)
Definition getReport (id : jsstring) (st : Store) : option IReport.t :=
  reports st !! id.

End ReportController.

(** ** Uploading a template

    What the upload path takes from outside the repository: [path.extname]
    and [String.prototype.toLowerCase]; the text the PDF and DOCX parsers
    extract from the file at a path, or the error they throw; and whether
    [fs.unlinkSync] fails on a path. *)
Record Externals := {
  extname : jsstring -> jsstring;
  toLowerCase : jsstring -> jsstring;
  pdfText : jsstring -> Completion jsstring;
  docxText : jsstring -> Completion jsstring;
  unlinkFails : jsstring -> bool
}.

(** The fields of [Express.Multer.File] the controller reads. *)
Record MulterFile := {
  path : jsstring;
  originalname : jsstring
}.

(** The process around the registries: the next free object reference and
    the paths that exist on disk. *)
Record Server := {
  store : Store;
  nextRef : ref;
  disk : gset jsstring
}.

Module FileParser.

(** [parsePDF]: [fs.readFileSync] and [pdfParse]. *)
Definition parsePDF (ext : Externals) (filePath : jsstring) : Completion jsstring :=
  pdfText ext filePath.

(** [parseDOCX]: [mammoth.extractRawText]. *)
Definition parseDOCX (ext : Externals) (filePath : jsstring) : Completion jsstring :=
  docxText ext filePath.

(** [parseFile] *)
Definition parseFile (ext : Externals) (filePath originalName : jsstring)
    : Completion ITemplate.t :=
  let fileExtension := toLowerCase ext (extname ext originalName) in
  '(text, fileType) ←
    (if decide (fileExtension = lit ".pdf") then
       text ← parsePDF ext filePath; mret (text, pdf)
     else if decide (fileExtension = lit ".docx") then
       text ← parseDOCX ext filePath; mret (text, docx)
     else Throw (lit "Unsupported file type: " ++ fileExtension));
  let sections := FileParserService.extractSections text in
  mret {| ITemplate.filename := originalName;
          ITemplate.type := fileType;
          ITemplate.content := text;
          ITemplate.sections := sections |}.

(** [cleanupFile]: removes the file when it exists; an error of
    [unlinkSync] is logged and dropped. *)
Definition cleanupFile (ext : Externals) (filePath : jsstring)
    (files : gset jsstring) : gset jsstring :=
  if decide (filePath ∈ files) then
    if unlinkFails ext filePath then files else files ∖ {[filePath]}
  else files.

End FileParser.

Module Upload.

Import FileParser.

(** The [fileFilter] of the upload interceptor: [cb(null, true)], or the
    error handed to [cb]. *)
Definition fileFilter (ext : Externals) (file : MulterFile) : Completion bool :=
  let allowedTypes := [lit ".pdf"; lit ".docx"] in
  let fileExtension := toLowerCase ext (extname ext (originalname file)) in
  if decide (fileExtension ∈ allowedTypes) then Normal true
  else Throw (lit "Only PDF and DOCX files are allowed").

(** [uploadTemplate]: the returned pair or the error thrown, and the
    process afterwards. [templateId] is what [uuidv4()] returns. *)
Definition uploadTemplate (ext : Externals) (templateId : jsstring)
    (file : option MulterFile) (sv : Server)
    : Completion (jsstring * ITemplate.t) * Server :=
  match file with
  | None => (Throw (lit "No file uploaded"), sv)
  | Some f =>
      match parseFile ext (path f) (originalname f) with
      | Normal template =>
          let r := nextRef sv in
          let st := store sv in
          (Normal (templateId, template),
           {| store :=
                {| objects := <[r := template]> (objects st);
                   templates := <[templateId := r]> (templates st);
                   reports := reports st |};
              nextRef := Pos.succ r;
              disk := cleanupFile ext (path f) (disk sv) |})
      | Throw message =>
          (Throw message,
           {| store := store sv;
              nextRef := nextRef sv;
              disk := if truthy (path f)
                      then cleanupFile ext (path f) (disk sv)
                      else disk sv |})
      end
  end.

(** [getTemplates]: the object that maps every registered id to its
    template. *)
Definition getTemplates (sv : Server) : gmap jsstring ITemplate.t :=
  objects (store sv) <$> templates (store sv).

(** A request served by the process. *)
Inductive Call :=
| UploadTemplate (ext : Externals) (templateId : jsstring)
    (file : option MulterFile)
| GenerateReport (env : Ambient) (request : Request).

Definition serve (sv : Server) (c : Call) : Server :=
  match c with
  | UploadTemplate ext templateId file =>
      (uploadTemplate ext templateId file sv).2
  | GenerateReport env request =>
      {| store := (ReportGeneratorService.generateReport env request (store sv)).2;
         nextRef := nextRef sv;
         disk := disk sv |}
  end.

(** The process at start: both registries empty. The template objects of
    unused references are immaterial. *)
Definition start (files : gset jsstring) : Server :=
  {| store :=
       {| objects := fun _ =>
            {| ITemplate.filename := []; ITemplate.type := pdf;
               ITemplate.content := []; ITemplate.sections := [] |};
          templates := ∅;
          reports := ∅ |};
     nextRef := 1%positive;
     disk := files |}.

End Upload.

(** * Vocabulary of the properties *)

Section SegmenterVocabulary.

Import FileParserService.

(** The section a header line opens. *)
Definition opened (trimmedLine : jsstring) (n : Z) : ITemplateSection :=
  {| title := trimmedLine;
     placeholder := Some (defaultPlaceholder trimmedLine);
     order := n;
     type := header |}.

(** Number of header lines among [ls]. *)
Definition headerCount (ls : list jsstring) : nat :=
  length (List.filter (fun l => isHeader (trim l)) ls).

Definition numbered (st : Scan) : Prop :=
  nextOrder st = Z.of_nat (length (pushCurrent st))
  /\ List.map order (pushCurrent st)
     = List.map Z.of_nat (seq 0 (length (pushCurrent st))).

Definition hasPlaceholder (s : ITemplateSection) : Prop :=
  exists p, placeholder s = Some p /\ p <> [].

(** The example input of the specification. *)
Definition exampleText : jsstring :=
  lit "1. 목표
달성할 목표는 매출 증가입니다.
2. 결론
요약하면 긍정적입니다.".

End SegmenterVocabulary.

Section ReportVocabulary.

Import ReportGeneratorService.

(** Ascending order of sections. *)
Definition byOrder (a b : ITemplateSection) : Prop := (order a <= order b)%Z.

(** A line of the report that begins with "## ". *)
Definition isLevel2Heading (line : jsstring) : bool :=
  startsWith (lit "## ") line.

Definition level2Headings (text : jsstring) : list jsstring :=
  List.filter isLevel2Heading (split_nl text).

(** The heading line the loop writes for a section. *)
Definition heading (section : ITemplateSection) : jsstring :=
  lit "## " ++ title section.

(** A string without a line feed. *)
Definition oneLine (s : jsstring) : bool :=
  forallb (fun c => negb (c =? 10)) s.

(** Lines, each ended by a line feed. *)
Definition unlines (ls : list jsstring) : jsstring :=
  concat (List.map (fun l => l ++ nl) ls).

(** [sectionBlock], line by line. *)
Definition blockLines (userPrompt : jsstring) (section : ITemplateSection)
    : list jsstring :=
  [heading section; []]
  ++ (match type section with
      | header => [lit "### " ++ title section ++ lit " 상세"; []]
      | _ => []
      end)
  ++ [show (placeholder section); []]
  ++ (match type section with
      | content =>
          [lit "[" ++ userPrompt ++ lit "와 관련된 " ++ title section
           ++ lit " 내용이 여기에 작성됩니다.]"; []]
      | table =>
          [lit "| 항목 | 내용 | 비고 |"; lit "|------|------|------|";
           lit "| 예시1 | 데이터1 | 설명1 |"; lit "| 예시2 | 데이터2 | 설명2 |"; []]
      | list_ =>
          [lit "- 첫 번째 항목"; lit "- 두 번째 항목"; lit "- 세 번째 항목"; []]
      | _ => []
      end).

(** The lines of the report [generateContentForTemplate] writes for the
    sections [sorted]. *)
Definition reportLines (env : Ambient) (t : ITemplate.t)
    (userPrompt : jsstring) (sorted : list ITemplateSection) : list jsstring :=
  [lit "# " ++ ITemplate.filename t ++ lit "에 기반한 보고서"; []]
  ++ concat (List.map (blockLines userPrompt) sorted)
  ++ [[]; lit "---"; lit "**보고서 생성 완료**: " ++ localeNow env;
      lit "**기반 템플릿**: " ++ ITemplate.filename t].

(** A section whose title and placeholder stay on one line and whose
    placeholder line is not itself a level-2 heading. *)
Definition plainSection (s : ITemplateSection) : bool :=
  oneLine (title s) && oneLine (show (placeholder s))
  && negb (isLevel2Heading (show (placeholder s))).

(** The record [generateReport] registers before synthesis starts. *)
Definition processingReport (env : Ambient) (request : Request) (r : ref)
    : IReport.t :=
  {| IReport.id := uuid env;
     IReport.title := req_title request;
     IReport.template := r;
     IReport.content := [];
     IReport.status := processing;
     IReport.created_at := createdAt env;
     IReport.completed_at := None |}.

(** Concrete data for the examples below. *)
Definition sampleAmbient : Ambient :=
  {| uuid := lit "7d444840-9dc0-11d1-b245-5ffdce74fad2";
     createdAt := lit "2025-01-01T00:00:00.000Z";
     localeNow := lit "1/1/2025, 12:00:00 AM";
     completedAt := lit "2025-01-01T00:00:00.001Z" |}.

Definition sampleSection (t p : jsstring) (o : Z) (ty : SectionType)
    : ITemplateSection :=
  {| title := t; placeholder := Some p; order := o; type := ty |}.

Definition sampleTemplate (l : list ITemplateSection) : ITemplate.t :=
  {| ITemplate.filename := lit "plan.docx";
     ITemplate.type := docx;
     ITemplate.content := lit "1. Goals";
     ITemplate.sections := l |}.

(** A store with one template, registered under "t1", and no report. *)
Definition sampleStore (l : list ITemplateSection) : Store :=
  {| objects := fun _ => sampleTemplate l;
     templates := {[ lit "t1" := 1%positive ]};
     reports := ∅ |}.

Definition sampleRequest (id : jsstring)
    (c : option (list (jsstring * JsValue))) : Request :=
  {| templateId := id; req_title := lit "Q3"; prompt := lit "sales";
     context := c |}.

End ReportVocabulary.

Section SegmenterDescription.

Import FileParserService.

(** Whether a line that is neither blank nor a header comes before the
    next header line of [ls]. *)
Fixpoint hasBody (ls : list jsstring) : bool :=
  match ls with
  | [] => false
  | l :: ls' =>
      if isHeader (trim l) then false
      else truthy (trim l) || hasBody ls'
  end.

(** One section per header line of [ls], numbered from [n]. *)
Fixpoint sectionsFrom (n : Z) (ls : list jsstring) : list ITemplateSection :=
  match ls with
  | [] => []
  | l :: ls' =>
      if isHeader (trim l) then
        {| title := trim l;
           placeholder := Some (defaultPlaceholder (trim l));
           order := n;
           type := if hasBody ls' then content else header |}
          :: sectionsFrom (n + 1) ls'
      else sectionsFrom n ls'
  end.

(** A section with its type set to content when [b] holds. *)
Definition promote (c : ITemplateSection) (b : bool) : ITemplateSection :=
  {| title := title c;
     placeholder := placeholder c;
     order := order c;
     type := if b then content else type c |}.

(** The trimmed non-blank lines of a list of lines. *)
Definition trimmedLines (ls : list jsstring) : list jsstring :=
  List.filter truthy (List.map trim ls).

(** The trimmed header lines of a list of lines. *)
Definition headerLines (ls : list jsstring) : list jsstring :=
  List.filter isHeader (List.map trim ls).

(** A section with its [order] moved up by [k]. *)
Definition shiftOrder (k : Z) (s : ITemplateSection) : ITemplateSection :=
  {| title := title s;
     placeholder := placeholder s;
     order := (order s + k)%Z;
     type := type s |}.

End SegmenterDescription.

(** A repetition count allowed by an upper bound. *)
Definition within (n : nat) (h : option nat) : Prop :=
  match h with Some m => (n <= m)%nat | None => True end.

Section HeaderVocabulary.

Import FileParserService.

(** The marker of a list item: decimal digits, one capital Latin letter or
    one Hangul syllable. *)
Definition isListMarker (m : jsstring) : bool :=
  (truthy m && forallb digit m)
  || match m with
     | [c] => range 65 90 c || range 44032 55203 c
     | _ => false
     end.

(** A code unit one of the anchored patterns can begin with, apart from
    the pattern for a closing colon. *)
Definition opensPattern (c : N) : bool :=
  digit c || range 44032 55203 c || range 65 90 c || chr 35 c
  || oneOf [91; 93; 12304; 12305] c.

(** A line that holds one of the five keywords. *)
Definition hasKeyword (line : jsstring) : bool :=
  existsb (fun k => includes k line)
    [lit "목표"; lit "개요"; lit "배경"; lit "결론"; lit "요약"].

End HeaderVocabulary.

(** A context [JSON.stringify] accepts; no context is one. *)
Definition serializable (c : option (list (jsstring * JsValue))) : bool :=
  match c with
  | Some props =>
      match JSON.stringify (JObj props) with
      | Normal _ => true
      | Throw _ => false
      end
  | None => true
  end.

(** The record of a completed report. *)
Definition completedReport (env : Ambient) (request : Request) (r : ref)
    (text : jsstring) : IReport.t :=
  {| IReport.id := uuid env;
     IReport.title := req_title request;
     IReport.template := r;
     IReport.content := text;
     IReport.status := completed;
     IReport.created_at := createdAt env;
     IReport.completed_at := Some (completedAt env) |}.

Section UploadVocabulary.

Import FileParser Upload.

(** A template whose sections are the segmentation of its content. *)
Definition segmented (t : ITemplate.t) : Prop :=
  ITemplate.sections t
  = FileParserService.extractSections (ITemplate.content t).

(** Every registered template lives below the next free reference and is
    segmented. *)
Definition consistent (sv : Server) : Prop :=
  forall id r,
    templates (store sv) !! id = Some r ->
    (r < nextRef sv)%positive /\ segmented (objects (store sv) r).

(** The extension, lower-cased, that [parseFile] looks at. *)
Definition fileExtension (ext : Externals) (originalName : jsstring) : jsstring :=
  toLowerCase ext (extname ext originalName).

(** Sample externals: the name after its last period; ASCII letters
    lowered; a PDF text for every path, no DOCX parser; [unlinkSync] never
    fails. *)
Fixpoint sampleExtname (s : jsstring) : jsstring :=
  match s with
  | [] => []
  | c :: s' =>
      match sampleExtname s' with
      | [] => if c =? 46 then c :: s' else []
      | e => e
      end
  end.

Definition sampleExternals : Externals :=
  {| extname := sampleExtname;
     toLowerCase :=
       List.map (fun c => if (65 <=? c) && (c <=? 90) then c + 32 else c);
     pdfText := fun _ => Normal (lit "1. Scope
all regions
2. Risks");
     docxText := fun _ => Throw (lit "Could not find the body element");
     unlinkFails := fun _ => false |}.

Definition sampleFile (name : jsstring) : MulterFile :=
  {| path := lit "uploads/3f2a-" ++ name; originalname := name |}.

End UploadVocabulary.

(** * Properties of the segmenter *)

Section Segmenter.

Import FileParserService.

#[local] Arguments isHeader : simpl never.
#[local] Arguments trim : simpl never.
#[local] Arguments defaultPlaceholder : simpl never.

Lemma isHeader_empty : isHeader [] = false.
Proof. vm_compute. reflexivity. Qed.

Lemma header_truthy line : isHeader (trim line) = true -> truthy (trim line) = true.
Proof.
  destruct (trim line) eqn:E; [|reflexivity].
  rewrite isHeader_empty. discriminate.
Qed.

Lemma scanLine_header st line :
  isHeader (trim line) = true ->
  scanLine st line =
    {| sections := pushCurrent st;
       currentSection := Some (opened (trim line) (nextOrder st));
       nextOrder := (nextOrder st + 1)%Z |}.
Proof. intros H. unfold scanLine. rewrite H. reflexivity. Qed.

Lemma scanLine_blank st line : truthy (trim line) = false -> scanLine st line = st.
Proof.
  intros H. unfold scanLine.
  destruct (trim line); [|discriminate].
  rewrite isHeader_empty. destruct (currentSection st); reflexivity.
Qed.

Lemma scanLine_body st line c :
  isHeader (trim line) = false -> truthy (trim line) = true ->
  currentSection st = Some c ->
  scanLine st line =
    {| sections := sections st;
       currentSection :=
         Some {| title := title c;
                 placeholder :=
                   if falsyPlaceholder (placeholder c)
                   then Some (trim line) else placeholder c;
                 order := order c;
                 type := content |};
       nextOrder := nextOrder st |}.
Proof. intros H1 H2 H3. unfold scanLine. rewrite H1, H3, H2. reflexivity. Qed.

Lemma scanLine_orphan st line :
  isHeader (trim line) = false -> currentSection st = None ->
  scanLine st line = st.
Proof. intros H1 H2. unfold scanLine. rewrite H1, H2. reflexivity. Qed.

Lemma pushCurrent_open ss c n :
  pushCurrent {| sections := ss; currentSection := Some c; nextOrder := n |}
  = ss ++ [c].
Proof. reflexivity. Qed.

Lemma pushCurrent_Some st c :
  currentSection st = Some c -> pushCurrent st = sections st ++ [c].
Proof. intros H. unfold pushCurrent. rewrite H. reflexivity. Qed.

(** The three ways one line acts on the scan. *)
Lemma scanLine_cases st line :
  (isHeader (trim line) = true /\
   scanLine st line =
     {| sections := pushCurrent st;
        currentSection := Some (opened (trim line) (nextOrder st));
        nextOrder := (nextOrder st + 1)%Z |})
  \/ (isHeader (trim line) = false /\ scanLine st line = st)
  \/ (isHeader (trim line) = false /\ truthy (trim line) = true /\
      exists c, currentSection st = Some c /\
        scanLine st line =
          {| sections := sections st;
             currentSection :=
               Some {| title := title c;
                       placeholder :=
                         if falsyPlaceholder (placeholder c)
                         then Some (trim line) else placeholder c;
                       order := order c;
                       type := content |};
             nextOrder := nextOrder st |}).
Proof.
  destruct (isHeader (trim line)) eqn:H.
  - left. split; [reflexivity|]. by apply scanLine_header.
  - destruct (currentSection st) as [c|] eqn:C.
    + destruct (truthy (trim line)) eqn:T.
      * right; right. repeat split; try reflexivity.
        exists c. split; [reflexivity|]. by apply scanLine_body.
      * right; left. split; [reflexivity|]. by apply scanLine_blank.
    + right; left. split; [reflexivity|]. by apply scanLine_orphan.
Qed.

(** Blank lines do not act on the scan, so filtering them out first
    changes nothing. *)
Lemma fold_nonBlank ls st :
  fold_left scanLine (List.filter (fun l => truthy (trim l)) ls) st
  = fold_left scanLine ls st.
Proof.
  revert st. induction ls as [|l ls IH]; intros st; simpl; [reflexivity|].
  destruct (truthy (trim l)) eqn:T; simpl.
  - apply IH.
  - rewrite (scanLine_blank _ _ T). apply IH.
Qed.

Lemma extractSections_unfold text :
  extractSections text =
    let sections := pushCurrent (fold_left scanLine (split_nl text) scan0) in
    match sections with [] => [defaultSection] | _ => sections end.
Proof.
  unfold extractSections, nonBlankLines. rewrite fold_nonBlank. simpl.
  destruct (pushCurrent _); reflexivity.
Qed.

(** *** Orders count the sections *)

Lemma numbered_scan0 : numbered scan0.
Proof. split; reflexivity. Qed.

Lemma numbered_scanLine st line : numbered st -> numbered (scanLine st line).
Proof.
  intros [Hn Ho].
  destruct (scanLine_cases st line) as [[_ ->]|[[_ ->]|(_ & _ & c & Hc & ->)]].
  - unfold numbered. rewrite pushCurrent_open, length_app. simpl.
    split; [lia|].
    rewrite map_app, Ho, seq_app, map_app. simpl.
    rewrite Hn. reflexivity.
  - by split.
  - unfold numbered in *. rewrite pushCurrent_open.
    rewrite (pushCurrent_Some _ _ Hc) in Hn, Ho.
    rewrite length_app in *. simpl in *. split; [exact Hn|].
    rewrite map_app in *. simpl in *. exact Ho.
Qed.

Lemma numbered_fold ls st : numbered st -> numbered (fold_left scanLine ls st).
Proof.
  revert st. induction ls as [|l ls IH]; intros st H; simpl; [exact H|].
  apply IH, numbered_scanLine, H.
Qed.

Lemma length_push_scanLine st line :
  length (pushCurrent (scanLine st line))
  = (length (pushCurrent st) + (if isHeader (trim line) then 1 else 0))%nat.
Proof.
  destruct (scanLine_cases st line) as [[E ->]|[[E ->]|(E & _ & c & Hc & ->)]];
    rewrite E.
  - rewrite pushCurrent_open, length_app. reflexivity.
  - lia.
  - rewrite pushCurrent_open, (pushCurrent_Some _ _ Hc), !length_app.
    simpl. lia.
Qed.

Lemma length_push_fold ls st :
  length (pushCurrent (fold_left scanLine ls st))
  = (length (pushCurrent st) + headerCount ls)%nat.
Proof.
  revert st. unfold headerCount.
  induction ls as [|l ls IH]; intros st; simpl; [lia|].
  rewrite IH, length_push_scanLine.
  destruct (isHeader (trim l)); simpl; lia.
Qed.

(** *** Placeholders *)

Lemma hasPlaceholder_opened t n : hasPlaceholder (opened t n).
Proof.
  exists (defaultPlaceholder t). split; [reflexivity|].
  unfold defaultPlaceholder. discriminate.
Qed.

Lemma hasPlaceholder_default : hasPlaceholder defaultSection.
Proof. eexists. split; [reflexivity|]. discriminate. Qed.

Lemma hasPlaceholder_not_falsy s :
  hasPlaceholder s -> falsyPlaceholder (placeholder s) = false.
Proof. intros (p & -> & Hp). destruct p; [done|reflexivity]. Qed.

Lemma placeholders_scanLine st line :
  Forall hasPlaceholder (pushCurrent st) ->
  Forall hasPlaceholder (pushCurrent (scanLine st line)).
Proof.
  intros H.
  destruct (scanLine_cases st line) as [[_ ->]|[[_ ->]|(_ & _ & c & Hc & ->)]].
  - rewrite pushCurrent_open. apply Forall_app. split; [exact H|].
    constructor; [apply hasPlaceholder_opened|constructor].
  - exact H.
  - rewrite pushCurrent_open. rewrite (pushCurrent_Some _ _ Hc) in H.
    apply Forall_app in H as [H1 H2]. apply Forall_app. split; [exact H1|].
    inversion H2 as [|? ? Hp _]; subst. constructor; [|constructor].
    rewrite (hasPlaceholder_not_falsy _ Hp).
    destruct Hp as (p & Hp & Hne). exists p. split; assumption.
Qed.

Lemma placeholders_fold ls st :
  Forall hasPlaceholder (pushCurrent st) ->
  Forall hasPlaceholder (pushCurrent (fold_left scanLine ls st)).
Proof.
  revert st. induction ls as [|l ls IH]; intros st H; simpl; [exact H|].
  apply IH, placeholders_scanLine, H.
Qed.

(** *** Sections already pushed stay where they are *)

Lemma sections_scanLine st line :
  exists tl, sections (scanLine st line) = sections st ++ tl.
Proof.
  destruct (scanLine_cases st line) as [[_ ->]|[[_ ->]|(_ & _ & c & Hc & ->)]];
    simpl.
  - unfold pushCurrent. destruct (currentSection st) as [c|].
    + by exists [c].
    + exists []. by rewrite app_nil_r.
  - exists []. by rewrite app_nil_r.
  - exists []. by rewrite app_nil_r.
Qed.

Lemma push_extends ls st :
  exists tl, pushCurrent (fold_left scanLine ls st) = sections st ++ tl.
Proof.
  revert st. induction ls as [|l ls IH]; intros st; simpl.
  - unfold pushCurrent. destruct (currentSection st) as [c|].
    + by exists [c].
    + exists []. by rewrite app_nil_r.
  - destruct (IH (scanLine st l)) as [tl ->].
    destruct (sections_scanLine st l) as [tl' ->].
    exists (tl' ++ tl). by rewrite app_assoc.
Qed.

(** The open section ends up right after the pushed ones, with its title
    and order, and once it is content it stays content. *)
Lemma current_persists ls st c :
  currentSection st = Some c ->
  exists c' tl,
    pushCurrent (fold_left scanLine ls st) = sections st ++ c' :: tl
    /\ title c' = title c /\ order c' = order c
    /\ (type c = content -> type c' = content).
Proof.
  revert st c. induction ls as [|l ls IH]; intros st c Hc; simpl.
  - exists c, []. rewrite (pushCurrent_Some _ _ Hc). by repeat split.
  - destruct (scanLine_cases st l) as [[_ E]|[[_ E]|(_ & _ & c0 & Hc0 & E)]];
      rewrite E.
    + destruct (push_extends ls
        {| sections := pushCurrent st;
           currentSection := Some (opened (trim l) (nextOrder st));
           nextOrder := (nextOrder st + 1)%Z |}) as [tl ->].
      simpl. rewrite (pushCurrent_Some _ _ Hc), <- app_assoc.
      exists c, tl. by repeat split.
    + by apply IH.
    + rewrite Hc in Hc0. injection Hc0 as <-.
      edestruct IH as (c' & tl & -> & Ht & Ho & Hty); [reflexivity|].
      simpl in *. exists c', tl. repeat split; try assumption.
      intros _. by apply Hty.
Qed.

Lemma fold_blanks blanks st :
  Forall (fun b => trim b = []) blanks -> fold_left scanLine blanks st = st.
Proof.
  induction 1 as [|b bs Hb _ IH]; simpl; [reflexivity|].
  rewrite scanLine_blank; [exact IH|]. by rewrite Hb.
Qed.

(** The scan after the lines [l1], started from nothing. *)
Lemma after_prefix l1 :
  let st := fold_left scanLine l1 scan0 in
  length (pushCurrent st) = headerCount l1
  /\ nextOrder st = Z.of_nat (headerCount l1).
Proof.
  simpl. pose proof (numbered_fold l1 scan0 numbered_scan0) as [Hn _].
  pose proof (length_push_fold l1 scan0) as Hl. simpl in Hl.
  rewrite Hn, Hl. by split.
Qed.

Lemma extractSections_nonempty text s ss :
  pushCurrent (fold_left scanLine (split_nl text) scan0) = s :: ss ->
  extractSections text = s :: ss.
Proof. intros H. rewrite extractSections_unfold, H. reflexivity. Qed.

(** *** The claims about segmentation *)

(** C7. Segmenting the empty string yields exactly one section, the default
    one: title "전체 문서", order 0, type content. *)
Theorem extractSections_empty :
  extractSections (lit "") =
    [ {| title := lit "전체 문서";
         placeholder := Some (lit "[보고서 내용을 입력하세요]");
         order := 0;
         type := content |} ].
Proof. vm_compute. reflexivity. Qed.

Lemma extractSections_numbered text :
  extractSections text <> []
  /\ List.map order (extractSections text)
     = List.map Z.of_nat (seq 0 (length (extractSections text))).
Proof.
  rewrite extractSections_unfold. simpl.
  pose proof (numbered_fold (split_nl text) scan0 numbered_scan0) as [_ Ho].
  destruct (pushCurrent _) as [|s ss]; [by split|].
  split; [discriminate|exact Ho].
Qed.

(** C6. For every input, [extractSections] returns (it is a total function)
    a non-empty list whose i-th section has order i: the orders start at 0
    and are strictly increasing. *)
Theorem extractSections_orders text :
  extractSections text <> []
  /\ (exists s ss, extractSections text = s :: ss /\ order s = 0%Z)
  /\ (forall i j si sj,
        extractSections text !! i = Some si ->
        extractSections text !! j = Some sj ->
        (i < j)%nat -> (order si < order sj)%Z)
  /\ (forall i s, extractSections text !! i = Some s -> order s = Z.of_nat i).
Proof.
  destruct (extractSections_numbered text) as [Hne Ho].
  assert (Hi : forall i s,
             extractSections text !! i = Some s -> order s = Z.of_nat i).
  { intros i s Hs.
    assert (H1 : List.map order (extractSections text) !! i = Some (order s))
      by (by rewrite list_lookup_fmap, Hs).
    rewrite Ho, list_lookup_fmap in H1.
    pose proof (lookup_lt_Some _ _ _ Hs) as Hlt.
    rewrite lookup_seq_lt in H1 by exact Hlt. simpl in H1. congruence. }
  split; [exact Hne|]. split; [|split; [|exact Hi]].
  - destruct (extractSections text) as [|s ss] eqn:E; [done|].
    exists s, ss. split; [reflexivity|]. by apply (Hi 0%nat).
  - intros i j si sj Hsi Hsj Hlt.
    rewrite (Hi _ _ Hsi), (Hi _ _ Hsj). lia.
Qed.

(** C10. Every section [extractSections] returns has a placeholder, and it
    is not the empty string. *)
Theorem extractSections_placeholders text :
  Forall (fun s => exists p, placeholder s = Some p /\ p <> [])
    (extractSections text).
Proof.
  rewrite extractSections_unfold. simpl.
  pose proof (placeholders_fold (split_nl text) scan0 (Forall_nil _)) as H.
  destruct (pushCurrent (fold_left scanLine (split_nl text) scan0)).
  - constructor; [apply hasPlaceholder_default|constructor].
  - exact H.
Qed.

(** C8. When the lines of the input contain a header line and, with nothing
    but blank lines in between, another header line, the result has a
    section for each at consecutive positions, and the first one is still
    of type header (with the placeholder it was given when opened). *)
Theorem consecutive_headers text l1 h1 blanks h2 l2 :
  split_nl text = l1 ++ h1 :: blanks ++ h2 :: l2 ->
  isHeader (trim h1) = true ->
  Forall (fun b => trim b = []) blanks ->
  isHeader (trim h2) = true ->
  let k := headerCount l1 in
  extractSections text !! k = Some (opened (trim h1) (Z.of_nat k))
  /\ exists s2,
       extractSections text !! S k = Some s2
       /\ title s2 = trim h2 /\ order s2 = Z.of_nat (S k).
Proof.
  intros Hsplit H1 Hb H2 k.
  destruct (after_prefix l1) as [Hlen Hnext]. fold k in Hlen, Hnext.
  set (st1 := fold_left scanLine l1 scan0) in *.
  assert (E : exists c' tl,
             pushCurrent (fold_left scanLine (split_nl text) scan0)
             = (pushCurrent st1 ++ [opened (trim h1) (Z.of_nat k)]) ++ c' :: tl
             /\ title c' = trim h2 /\ order c' = Z.of_nat (S k)).
  { rewrite Hsplit, fold_left_app. fold st1. simpl.
    rewrite fold_left_app. simpl.
    rewrite (scanLine_header _ _ H1), (fold_blanks _ _ Hb).
    rewrite (scanLine_header _ _ H2), pushCurrent_open. simpl.
    edestruct (current_persists l2) as (c' & tl & -> & Ht & Ho & _);
      [reflexivity|].
    simpl in *. exists c', tl. rewrite Hnext. repeat split; try assumption.
    rewrite Ho. lia. }
  destruct E as (c' & tl & E & Ht & Ho).
  assert (Hne : exists s ss,
             pushCurrent (fold_left scanLine (split_nl text) scan0) = s :: ss).
  { rewrite E. destruct (pushCurrent st1); simpl; eauto. }
  destruct Hne as (s & ss & Hne).
  rewrite (extractSections_nonempty _ _ _ Hne), <- Hne, E.
  split.
  - rewrite <- app_assoc. simpl. rewrite <- Hlen. apply list_lookup_middle.
    reflexivity.
  - exists c'. split; [|by split].
    replace (S k) with (length (pushCurrent st1 ++ [opened (trim h1) (Z.of_nat k)])).
    + apply list_lookup_middle. reflexivity.
    + rewrite length_app. simpl. lia.
Qed.

Lemma consecutive_headers_witness :
  let text := lit "preface
1. Scope
covers everything

# Goals

## Details
the details" in
  extractSections text !! 1%nat = Some (opened (lit "# Goals") 1)
  /\ exists s2,
       extractSections text !! 2%nat = Some s2
       /\ title s2 = lit "## Details" /\ order s2 = 2%Z.
Proof.
  apply (consecutive_headers _
           [lit "preface"; lit "1. Scope"; lit "covers everything"; lit ""]
           (lit "# Goals") [lit ""] (lit "## Details") [lit "the details"]).
  - vm_compute. reflexivity.
  - vm_compute. reflexivity.
  - repeat constructor.
  - vm_compute. reflexivity.
Defined.

(** C2, as the code has it. A header line directly followed by a line that
    is neither blank nor a header yields a section for that header, at the
    position and with the order given by the number of header lines before
    it, and of type content. The example input yields four sections, all
    of type header: its two body lines contain the keywords 목표 and 요약
    and are therefore header lines themselves. *)
Theorem header_then_body :
  (forall text l1 h b l2,
     split_nl text = l1 ++ h :: b :: l2 ->
     isHeader (trim h) = true ->
     isHeader (trim b) = false ->
     truthy (trim b) = true ->
     exists s,
       extractSections text !! headerCount l1 = Some s
       /\ title s = trim h /\ order s = Z.of_nat (headerCount l1)
       /\ type s = content)
  /\ extractSections exampleText =
       [ opened (lit "1. 목표") 0;
         opened (lit "달성할 목표는 매출 증가입니다.") 1;
         opened (lit "2. 결론") 2;
         opened (lit "요약하면 긍정적입니다.") 3 ].
Proof.
  split; [|vm_compute; reflexivity].
  intros text l1 h b l2 Hsplit Hh Hb Ht.
  destruct (after_prefix l1) as [Hlen Hnext].
  set (st1 := fold_left scanLine l1 scan0) in *.
  assert (E : exists c' tl,
             pushCurrent (fold_left scanLine (split_nl text) scan0)
             = pushCurrent st1 ++ c' :: tl
             /\ title c' = trim h /\ order c' = Z.of_nat (headerCount l1)
             /\ type c' = content).
  { rewrite Hsplit, fold_left_app. fold st1. simpl.
    rewrite (scanLine_header _ _ Hh).
    erewrite (scanLine_body _ _ _ Hb Ht); [|reflexivity]. simpl.
    edestruct (current_persists l2) as (c' & tl & -> & Hti & Ho & Hty);
      [reflexivity|].
    simpl in *. exists c', tl. rewrite <- Hnext.
    repeat split; try assumption. by apply Hty. }
  destruct E as (c' & tl & E & Hti & Ho & Hty).
  assert (Hne : exists s ss,
             pushCurrent (fold_left scanLine (split_nl text) scan0) = s :: ss).
  { rewrite E. destruct (pushCurrent st1); simpl; eauto. }
  destruct Hne as (s & ss & Hne).
  rewrite (extractSections_nonempty _ _ _ Hne), <- Hne, E.
  exists c'. split; [|by repeat split].
  rewrite <- Hlen. apply list_lookup_middle. reflexivity.
Qed.

Lemma header_then_body_witness :
  exists s,
    extractSections (lit "intro
# Plan
first step
second step") !! 0%nat = Some s
    /\ title s = lit "# Plan" /\ order s = 0%Z /\ type s = content.
Proof.
  apply (proj1 header_then_body _ [lit "intro"] (lit "# Plan")
           (lit "first step") [lit "second step"]).
  - vm_compute. reflexivity.
  - vm_compute. reflexivity.
  - vm_compute. reflexivity.
  - vm_compute. reflexivity.
Defined.

(** C2 as stated fails twice. The placeholder of a section is never
    replaced by its first body line, and the example input does not yield
    two sections. *)
Lemma header_then_body_counterexample :
  ~ (forall text l1 h b l2,
       split_nl text = l1 ++ h :: b :: l2 ->
       isHeader (trim h) = true ->
       isHeader (trim b) = false ->
       truthy (trim b) = true ->
       exists s,
         s ∈ extractSections text
         /\ title s = trim h /\ type s = content
         /\ placeholder s = Some (trim b))
  /\ ~ (exists s0 s1,
          extractSections exampleText = [s0; s1]
          /\ order s0 = 0%Z /\ order s1 = 1%Z
          /\ type s0 = content /\ type s1 = content
          /\ placeholder s0 = Some (lit "달성할 목표는 매출 증가입니다.")
          /\ placeholder s1 = Some (lit "요약하면 긍정적입니다.")).
Proof.
  split.
  - intros H.
    destruct (H (lit "1. Intro
body") [] (lit "1. Intro") (lit "body") []) as (s & Hin & _ & _ & Hp);
      try (vm_compute; reflexivity).
    vm_compute in Hin. apply list_elem_of_singleton in Hin. subst s.
    vm_compute in Hp. discriminate.
  - intros (s0 & s1 & E & _). vm_compute in E. discriminate.
Qed.

(** *** Header classification *)

Lemma isHeader_long_line line :
  (100 <=? strlen line) = true ->
  existsb (fun pattern => test pattern line) headerPatterns = false ->
  isHeader line =
    includes (lit "개요") line || includes (lit "배경") line
    || includes (lit "결론") line || includes (lit "요약") line.
Proof.
  intros Hlen Hpat. unfold isHeader. rewrite Hpat.
  replace (strlen line <? 100) with false
    by (symmetry; apply N.ltb_ge; by apply N.leb_le).
  reflexivity.
Qed.

(** C3, at a failing input. The line "개요" followed by 98 letters a has
    100 characters and matches none of the six patterns, and [isHeader]
    still answers true: the length test guards the keyword 목표 only. *)
Theorem isHeader_long_keyword_line :
  let line := lit "개요" ++ repeat 97 98 in
  strlen line = 100
  /\ existsb (fun pattern => test pattern line) headerPatterns = false
  /\ isHeader line = true.
Proof. vm_compute. repeat split. Qed.

End Segmenter.

(** * Properties of the report generator *)

Section Sorting.

Import ReportGeneratorService.

Lemma insertByOrder_perm a l : Permutation (insertByOrder a l) (a :: l).
Proof.
  induction l as [|b l IH]; simpl; [reflexivity|].
  destruct (order a - order b <=? 0)%Z; [reflexivity|].
  rewrite IH. apply perm_swap.
Qed.

Lemma sortByOrder_perm l : Permutation (sortByOrder l) l.
Proof.
  induction l as [|a l IH]; simpl; [reflexivity|].
  rewrite insertByOrder_perm. by constructor.
Qed.

Lemma sortByOrder_length l : length (sortByOrder l) = length l.
Proof. apply Permutation_length, sortByOrder_perm. Qed.

Lemma insertByOrder_sorted a l :
  StronglySorted byOrder l -> StronglySorted byOrder (insertByOrder a l).
Proof.
  induction 1 as [|b l Hs IH Hb]; simpl.
  - repeat constructor.
  - destruct (order a - order b <=? 0)%Z eqn:E.
    + apply Z.leb_le in E. constructor; [by constructor|].
      constructor; [unfold byOrder; lia|].
      eapply List.Forall_impl; [|exact Hb]. unfold byOrder. intros; lia.
    + apply Z.leb_gt in E. constructor; [exact IH|].
      rewrite insertByOrder_perm. constructor; [unfold byOrder; lia|exact Hb].
Qed.

Lemma sortByOrder_sorted l : StronglySorted byOrder (sortByOrder l).
Proof.
  induction l as [|a l IH]; simpl; [constructor|].
  by apply insertByOrder_sorted.
Qed.

(** Stability: sections of equal order keep their relative positions. *)
Lemma insertByOrder_stable k a l :
  List.filter (fun s => (order s =? k)%Z) (insertByOrder a l)
  = List.filter (fun s => (order s =? k)%Z) (a :: l).
Proof.
  induction l as [|b l IH]; [reflexivity|].
  cbn [insertByOrder].
  destruct (order a - order b <=? 0)%Z eqn:E; [reflexivity|].
  apply Z.leb_gt in E. cbn [List.filter] in *. rewrite IH.
  destruct (order a =? k)%Z eqn:Ea, (order b =? k)%Z eqn:Eb; try reflexivity.
  apply Z.eqb_eq in Ea, Eb. lia.
Qed.

Lemma sortByOrder_stable k l :
  List.filter (fun s => (order s =? k)%Z) (sortByOrder l)
  = List.filter (fun s => (order s =? k)%Z) l.
Proof.
  induction l as [|a l IH]; [reflexivity|].
  cbn [sortByOrder foldr]. rewrite insertByOrder_stable.
  cbn [List.filter]. fold (sortByOrder l). by rewrite IH.
Qed.

(** Sorting a list that is already in ascending order changes nothing. *)
Lemma sortByOrder_sorted_id l : StronglySorted byOrder l -> sortByOrder l = l.
Proof.
  induction 1 as [|a l Hs IH Ha]; [reflexivity|].
  cbn [sortByOrder foldr]. fold (sortByOrder l). rewrite IH.
  destruct l as [|b l]; [reflexivity|]. simpl.
  inversion Ha as [|? ? Hab _]; subst. unfold byOrder in Hab.
  replace (order a - order b <=? 0)%Z with true; [reflexivity|].
  symmetry. apply Z.leb_le. lia.
Qed.

End Sorting.

Section Generator.

Import ReportGeneratorService.

Lemma generateReport_unknown env request st :
  templates st !! templateId request = None ->
  generateReport env request st = (failure (lit "Template not found"), st).
Proof. intros H. unfold generateReport. rewrite H. reflexivity. Qed.

Lemma generateReport_throw env request st r m :
  templates st !! templateId request = Some r ->
  systemPrompt (objects st r) (prompt request) (context request) = Throw m ->
  generateReport env request st =
    (failure m,
     {| objects := objects st;
        templates := templates st;
        reports := <[uuid env := processingReport env request r]> (reports st) |}).
Proof.
  intros H1 H2. unfold generateReport, generateContentForTemplate.
  rewrite H1, H2. reflexivity.
Qed.

Lemma generateReport_success env request st r :
  templates st !! templateId request = Some r ->
  (exists m,
     systemPrompt (objects st r) (prompt request) (context request) = Throw m
     /\ IGenerateResponse.content (generateReport env request st).1 = None)
  \/ (exists c,
        generateContentForTemplate env r (prompt request) (context request)
          (objects st)
        = (Normal c,
           <[r := setSections (objects st r)
                    (sortByOrder (ITemplate.sections (objects st r)))]>
             (objects st))
        /\ IGenerateResponse.content (generateReport env request st).1 = Some c
        /\ objects (generateReport env request st).2
           = <[r := setSections (objects st r)
                      (sortByOrder (ITemplate.sections (objects st r)))]>
               (objects st)).
Proof.
  intros H1. unfold generateReport. rewrite H1.
  unfold generateContentForTemplate.
  destruct (systemPrompt _ _ _) as [sp|m] eqn:E.
  - right. eexists. repeat split.
  - left. exists m. by split.
Qed.

(** C9. For a templateId that is not in the templates registry,
    [generateReport] answers with reportId "", status failed and the
    message "Template not found", and the store it leaves is the store it
    found: no report is added, no identifier drawn, no template touched. *)
Theorem generateReport_template_not_found env request st :
  templates st !! templateId request = None ->
  let (response, st') := generateReport env request st in
  IGenerateResponse.reportId response = lit ""
  /\ IGenerateResponse.status response = rs_failed
  /\ IGenerateResponse.error response = Some (lit "Template not found")
  /\ reports st' = reports st
  /\ st' = st.
Proof.
  intros H. rewrite (generateReport_unknown _ _ _ H). by repeat split.
Qed.

Lemma generateReport_template_not_found_witness :
  let (response, st') :=
    generateReport sampleAmbient (sampleRequest (lit "t2") None)
      (sampleStore []) in
  IGenerateResponse.reportId response = lit ""
  /\ IGenerateResponse.status response = rs_failed
  /\ IGenerateResponse.error response = Some (lit "Template not found")
  /\ reports st' = reports (sampleStore [])
  /\ st' = sampleStore [].
Proof.
  apply (generateReport_template_not_found sampleAmbient
           (sampleRequest (lit "t2") None) (sampleStore [])).
  vm_compute. reflexivity.
Defined.

(** C1, at a failing input. The context holds a BigInt, which
    [JSON.stringify] refuses while the prompt is being built. The call
    answers with reportId "" and status failed, and the reports registry,
    empty before, now holds the record of the attempt, in state processing
    and with empty content. *)
Theorem generateReport_failure_leaves_processing :
  let request := sampleRequest (lit "t1") (Some [(lit "total", JBigInt 10)]) in
  let st := sampleStore [sampleSection (lit "1. Goals") (lit "[goals]") 0 header] in
  let (response, st') := generateReport sampleAmbient request st in
  reports st = ∅
  /\ IGenerateResponse.reportId response = lit ""
  /\ IGenerateResponse.status response = rs_failed
  /\ IGenerateResponse.error response
     = Some (lit "Do not know how to serialize a BigInt")
  /\ reports st' !! uuid sampleAmbient
     = Some (processingReport sampleAmbient request 1%positive)
  /\ reports st' <> reports st.
Proof.
  cbv zeta.
  erewrite generateReport_throw; [|vm_compute; reflexivity..].
  split; [reflexivity|]. split; [reflexivity|]. split; [reflexivity|].
  split; [reflexivity|]. split.
  - apply lookup_insert_eq.
  - apply insert_non_empty.
Qed.


(** *** The lines of a report *)

Lemma oneLine_app a b : oneLine (a ++ b) = oneLine a && oneLine b.
Proof. apply forallb_app. Qed.

Lemma split_nl_line l r :
  oneLine l = true -> split_nl (l ++ 10 :: r) = l :: split_nl r.
Proof.
  induction l as [|c l IH]; intros H; [reflexivity|].
  simpl in H. apply andb_true_iff in H as [Hc Hl].
  cbn [app split_nl]. rewrite (IH Hl).
  apply negb_true_iff in Hc. rewrite Hc. reflexivity.
Qed.

Lemma split_unlines ls r :
  Forall (fun l => oneLine l = true) ls ->
  split_nl (unlines ls ++ r) = ls ++ split_nl r.
Proof.
  induction 1 as [|l ls Hl _ IH]; [reflexivity|].
  unfold unlines in *. cbn [List.map concat].
  rewrite <- !app_assoc. cbn [nl app].
  rewrite (split_nl_line _ _ Hl), IH. reflexivity.
Qed.

Lemma unlines_app a b : unlines (a ++ b) = unlines a ++ unlines b.
Proof. unfold unlines. by rewrite map_app, concat_app. Qed.

Lemma unlines_concat (ls : list (list jsstring)) :
  unlines (concat ls) = concat (List.map unlines ls).
Proof.
  induction ls as [|l ls IH]; [reflexivity|].
  cbn [concat List.map]. by rewrite unlines_app, IH.
Qed.

Lemma fold_left_blocks (f : ITemplateSection -> jsstring) l init :
  fold_left (fun acc section => acc ++ f section) l init
  = init ++ concat (List.map f l).
Proof.
  revert init. induction l as [|a l IH]; intros init; simpl.
  - by rewrite app_nil_r.
  - by rewrite IH, app_assoc.
Qed.

Lemma sectionBlock_unlines userPrompt section :
  sectionBlock userPrompt section = unlines (blockLines userPrompt section).
Proof.
  unfold sectionBlock, blockLines, unlines, heading, nl.
  generalize (show (placeholder section)) (title section).
  intros ph t.
  destruct (type section);
    repeat match goal with
           | |- context [lit ?s] => generalize (lit s); intro
           end;
    simpl; repeat (rewrite <- ?app_assoc, ?app_nil_r; simpl); reflexivity.
Qed.

Lemma generateContent_lines env r userPrompt context objs c objs' :
  generateContentForTemplate env r userPrompt context objs = (Normal c, objs') ->
  c = unlines (reportLines env (objs r) userPrompt
                 (sortByOrder (ITemplate.sections (objs r)))).
Proof.
  unfold generateContentForTemplate, reportLines. cbv zeta.
  rewrite !unlines_app, unlines_concat, map_map, fold_left_blocks.
  rewrite (map_ext _ _ (sectionBlock_unlines userPrompt)).
  match goal with
  | |- context [concat (List.map ?f ?l)] =>
      generalize (concat (List.map f l))
  end.
  intros blocks. unfold unlines, nl.
  generalize (ITemplate.filename (objs r)) (localeNow env). intros fn loc.
  repeat match goal with
         | |- context [lit ?s] => generalize (lit s); intro
         end.
  destruct (systemPrompt _ _ _); [|discriminate].
  intros [= <- _]. simpl.
  repeat (rewrite <- ?app_assoc, ?app_nil_r; simpl). reflexivity.
Qed.

Lemma blockLines_oneLine userPrompt s :
  oneLine userPrompt = true -> plainSection s = true ->
  Forall (fun l => oneLine l = true) (blockLines userPrompt s).
Proof.
  intros Hp Hs. unfold plainSection in Hs.
  apply andb_true_iff in Hs as [Hs _]. apply andb_true_iff in Hs as [Ht Hph].
  unfold blockLines, heading.
  destruct (type s); cbn [app]; repeat constructor;
    rewrite ?oneLine_app, ?Ht, ?Hph, ?Hp; reflexivity.
Qed.

Lemma blockLines_headings userPrompt s :
  plainSection s = true ->
  List.filter isLevel2Heading (blockLines userPrompt s) = [heading s].
Proof.
  intros Hs. unfold plainSection in Hs.
  apply andb_true_iff in Hs as [_ Hph]. apply negb_true_iff in Hph.
  assert (Hh : isLevel2Heading (heading s) = true).
  { unfold isLevel2Heading, heading. vm_compute. reflexivity. }
  unfold blockLines.
  destruct (type s); cbn [app List.filter]; rewrite Hh, Hph; reflexivity.
Qed.

Lemma headings_concat userPrompt l :
  Forall (fun s => plainSection s = true) l ->
  List.filter isLevel2Heading (concat (List.map (blockLines userPrompt) l))
  = List.map heading l.
Proof.
  induction 1 as [|s l Hs _ IH]; [reflexivity|].
  cbn [List.map concat]. rewrite List.filter_app, IH.
  rewrite (blockLines_headings _ _ Hs). reflexivity.
Qed.

Lemma reportLines_headings env t userPrompt sorted :
  oneLine (ITemplate.filename t) = true ->
  oneLine (localeNow env) = true ->
  oneLine userPrompt = true ->
  Forall (fun s => plainSection s = true) sorted ->
  level2Headings (unlines (reportLines env t userPrompt sorted))
  = List.map heading sorted.
Proof.
  intros Hf Hl Hp Hs. unfold level2Headings.
  rewrite <- (app_nil_r (unlines _)), split_unlines.
  - unfold reportLines.
    assert (H1 : List.filter isLevel2Heading
                   [lit "# " ++ ITemplate.filename t ++ lit "에 기반한 보고서"; []]
                 = []) by (vm_compute; reflexivity).
    assert (H2 : List.filter isLevel2Heading
                   [[]; lit "---"; lit "**보고서 생성 완료**: " ++ localeNow env;
                    lit "**기반 템플릿**: " ++ ITemplate.filename t]
                 = []) by (vm_compute; reflexivity).
    assert (H3 : List.filter isLevel2Heading (split_nl []) = [])
      by (vm_compute; reflexivity).
    rewrite !List.filter_app, H1, H2, H3, headings_concat by exact Hs.
    rewrite !app_nil_r. reflexivity.
  - unfold reportLines. rewrite !Forall_app. split; [|split].
    + repeat constructor. rewrite !oneLine_app, Hf. reflexivity.
    + apply Forall_concat, Forall_map.
      eapply List.Forall_impl; [|exact Hs].
      intros s. by apply blockLines_oneLine.
    + repeat constructor; rewrite ?oneLine_app, ?Hf, ?Hl; reflexivity.
Qed.

(** C5, as the code has it. Take a successful [generateReport] on a
    template with N sections, where the file name, the prompt and the
    locale date have no line feed, and every section has a title and a
    placeholder without line feed and a placeholder that does not itself
    begin with "## ". Then the lines of the content that begin with "## "
    are exactly the N lines "## title", one per section, in ascending order
    of [order], sections of equal order in their original relative
    order. *)
Theorem generateReport_headings env request st r text :
  templates st !! templateId request = Some r ->
  IGenerateResponse.content (generateReport env request st).1 = Some text ->
  oneLine (ITemplate.filename (objects st r)) = true ->
  oneLine (localeNow env) = true ->
  oneLine (prompt request) = true ->
  forallb plainSection (ITemplate.sections (objects st r)) = true ->
  let sections := ITemplate.sections (objects st r) in
  let sorted := sortByOrder sections in
  level2Headings text = List.map heading sorted
  /\ length (level2Headings text) = length sections
  /\ Permutation sorted sections
  /\ StronglySorted byOrder sorted
  /\ (forall k,
        List.filter (fun s => (order s =? k)%Z) sorted
        = List.filter (fun s => (order s =? k)%Z) sections).
Proof.
  intros Hr Hc Hf Hl Hp Hs sections sorted.
  assert (E : level2Headings text = List.map heading sorted).
  { destruct (generateReport_success env request st r Hr)
      as [(m & _ & Hn)|(c & Hg & Hc' & _)]; [congruence|].
    rewrite Hc in Hc'. injection Hc' as <-.
    rewrite (generateContent_lines _ _ _ _ _ _ _ Hg).
    apply reportLines_headings; try assumption.
    apply Forall_forall. intros s Hin.
    apply (Permutation_in _ (sortByOrder_perm _)) in Hin.
    rewrite forallb_forall in Hs. by apply Hs. }
  split; [exact E|]. split; [|split; [|split]].
  - rewrite E, length_map. apply sortByOrder_length.
  - apply sortByOrder_perm.
  - apply sortByOrder_sorted.
  - intros k. apply sortByOrder_stable.
Qed.

Lemma generateReport_headings_witness :
  let sections :=
    [ sampleSection (lit "3. Outlook") (lit "[outlook]") 2 list_;
      sampleSection (lit "1. Goals") (lit "[goals]") 0 header;
      sampleSection (lit "2a. Risks") (lit "[risks]") 1 content;
      sampleSection (lit "2b. Costs") (lit "[costs]") 1 table ] in
  exists text,
    IGenerateResponse.content
      (generateReport sampleAmbient (sampleRequest (lit "t1") None)
         (sampleStore sections)).1 = Some text
    /\ level2Headings text
       = [lit "## 1. Goals"; lit "## 2a. Risks"; lit "## 2b. Costs";
          lit "## 3. Outlook"].
Proof.
  intros sections. eexists. split; [reflexivity|].
  exact (proj1 (generateReport_headings sampleAmbient
                  (sampleRequest (lit "t1") None) (sampleStore sections)
                  1%positive _
                  ltac:(vm_compute; reflexivity) eq_refl
                  ltac:(vm_compute; reflexivity) ltac:(vm_compute; reflexivity)
                  ltac:(vm_compute; reflexivity) ltac:(vm_compute; reflexivity))).
Defined.

(** C5 as stated fails: a placeholder (or a title, a prompt, a file name)
    is copied into the report as it is, and may bring lines that begin
    with "## ". Here one section gives two such lines. *)
Lemma generateReport_headings_counterexample :
  ~ (forall env request st r text,
       templates st !! templateId request = Some r ->
       IGenerateResponse.content (generateReport env request st).1 = Some text ->
       length (level2Headings text)
       = length (ITemplate.sections (objects st r))).
Proof.
  intros H.
  specialize (H sampleAmbient (sampleRequest (lit "t1") None)
                (sampleStore [sampleSection (lit "1. Goals") (lit "## Goals") 0 content])
                1%positive _ ltac:(vm_compute; reflexivity) eq_refl).
  vm_compute in H. discriminate.
Qed.

End Generator.

(** * Further properties of the segmenter *)

Section SegmenterMore.

Import FileParserService.

#[local] Arguments isHeader : simpl never.
#[local] Arguments trim : simpl never.
#[local] Arguments defaultPlaceholder : simpl never.

Lemma promote_false c : promote c false = c.
Proof. by destruct c. Qed.

Lemma promote_opened t n b :
  promote (opened t n) b =
    {| title := t; placeholder := Some (defaultPlaceholder t); order := n;
       type := if b then content else header |}.
Proof. reflexivity. Qed.

(** The scan with an open section [c], continued over [ls]. *)
Lemma fold_open ls st c :
  currentSection st = Some c ->
  falsyPlaceholder (placeholder c) = false ->
  pushCurrent (fold_left scanLine ls st)
  = sections st ++ promote c (hasBody ls) :: sectionsFrom (nextOrder st) ls.
Proof.
  revert st c. induction ls as [|l ls IH]; intros st c Hc Hp.
  - simpl. rewrite promote_false. by apply pushCurrent_Some.
  - cbn [fold_left hasBody sectionsFrom].
    destruct (isHeader (trim l)) eqn:H.
    + rewrite (scanLine_header _ _ H).
      erewrite IH; [|reflexivity|reflexivity]. cbn [sections nextOrder].
      rewrite (pushCurrent_Some _ _ Hc), promote_false, promote_opened.
      by rewrite <- app_assoc.
    + destruct (truthy (trim l)) eqn:T.
      * rewrite (scanLine_body _ _ _ H T Hc), Hp.
        erewrite IH; [|reflexivity|exact Hp]. cbn [sections nextOrder].
        f_equal. f_equal. unfold promote. simpl. by destruct (hasBody ls).
      * rewrite (scanLine_blank _ _ T). by apply IH.
Qed.

(** The scan with no open section, continued over [ls]. *)
Lemma fold_closed ls st :
  currentSection st = None ->
  pushCurrent (fold_left scanLine ls st)
  = sections st ++ sectionsFrom (nextOrder st) ls.
Proof.
  revert st. induction ls as [|l ls IH]; intros st Hc.
  - simpl. unfold pushCurrent. rewrite Hc. by rewrite app_nil_r.
  - cbn [fold_left sectionsFrom].
    destruct (isHeader (trim l)) eqn:H.
    + rewrite (scanLine_header _ _ H).
      erewrite fold_open; [|reflexivity|reflexivity].
      cbn [sections nextOrder]. unfold pushCurrent at 1. rewrite Hc.
      by rewrite promote_opened.
    + rewrite (scanLine_orphan _ _ H Hc). by apply IH.
Qed.

Lemma extractSections_sectionsFrom text :
  extractSections text =
    match sectionsFrom 0 (split_nl text) with
    | [] => [defaultSection]
    | s :: ss => s :: ss
    end.
Proof.
  rewrite extractSections_unfold. cbv zeta.
  rewrite (fold_closed _ scan0 eq_refl). cbn [sections nextOrder scan0 app].
  by destruct (sectionsFrom 0 (split_nl text)).
Qed.

(** *** Facts about [trim] and [split_nl] *)

Lemma dropWhile_fix p s :
  match s with [] => True | c :: _ => p c = false end -> dropWhile p s = s.
Proof. destruct s as [|c s]; simpl; [done|]. by intros ->. Qed.

Lemma dropWhile_head p s :
  match dropWhile p s with [] => True | c :: _ => p c = false end.
Proof.
  induction s as [|c s IH]; simpl; [done|].
  destruct (p c) eqn:E; [exact IH|exact E].
Qed.

Lemma dropWhile_suffix p s : exists pre, s = pre ++ dropWhile p s.
Proof.
  induction s as [|c s [pre IH]]; simpl.
  - by exists [].
  - destruct (p c).
    + exists (c :: pre). simpl. by rewrite <- IH.
    + by exists [].
Qed.

Lemma rev_head_last (s : jsstring) c r :
  rev s = c :: r -> exists pre, s = pre ++ [c].
Proof.
  intros H. exists (rev r).
  rewrite <- (rev_involutive s), H. reflexivity.
Qed.

(** What [trim] returns neither starts nor ends with white space. *)
Lemma trim_ends s :
  match trim s with [] => True | c :: _ => isWhiteSpace c = false end
  /\ match rev (trim s) with [] => True | c :: _ => isWhiteSpace c = false end.
Proof.
  unfold trim.
  set (d := dropWhile isWhiteSpace s).
  set (u := dropWhile isWhiteSpace (rev d)).
  pose proof (dropWhile_head isWhiteSpace s) as Hd. fold d in Hd.
  pose proof (dropWhile_head isWhiteSpace (rev d)) as Hu. fold u in Hu.
  split; [|by rewrite rev_involutive].
  destruct (dropWhile_suffix isWhiteSpace (rev d)) as [pre Hpre]. fold u in Hpre.
  destruct u as [|c u'] eqn:Eu; [done|].
  assert (Hd' : d = rev (c :: u') ++ rev pre).
  { rewrite <- (rev_involutive d), Hpre, rev_app_distr. reflexivity. }
  destruct (rev (c :: u')) as [|x xs] eqn:Er.
  - apply (f_equal (@length N)) in Er. rewrite length_rev in Er. discriminate.
  - rewrite Hd' in Hd. exact Hd.
Qed.

Lemma trim_idem s : trim (trim s) = trim s.
Proof.
  destruct (trim_ends s) as [H1 H2].
  unfold trim at 1.
  rewrite (dropWhile_fix _ _ H1), (dropWhile_fix _ _ H2).
  apply rev_involutive.
Qed.

Lemma split_nl_nonempty s : split_nl s <> [].
Proof.
  destruct s as [|c s]; [done|]. simpl.
  destruct (c =? 10); [done|]. by destruct (split_nl s).
Qed.

Lemma split_nl_app a b : split_nl (a ++ 10 :: b) = split_nl a ++ split_nl b.
Proof.
  induction a as [|c a IH]; [reflexivity|].
  cbn [app split_nl]. rewrite IH.
  destruct (c =? 10); [reflexivity|].
  pose proof (split_nl_nonempty a). by destruct (split_nl a).
Qed.

Lemma split_nl_oneLine text : Forall (fun l => oneLine l = true) (split_nl text).
Proof.
  induction text as [|c text IH]; [by repeat constructor|].
  cbn [split_nl]. destruct (c =? 10) eqn:E.
  - by constructor.
  - destruct (split_nl text) as [|l ls]; [by repeat constructor; simpl; rewrite E|].
    inversion IH; subst. constructor; [|done]. simpl. by rewrite E.
Qed.

Lemma dropWhile_oneLine p s : oneLine s = true -> oneLine (dropWhile p s) = true.
Proof.
  destruct (dropWhile_suffix p s) as [pre E]. intros H.
  rewrite E, oneLine_app in H. by apply andb_true_iff in H as [_ H].
Qed.

Lemma rev_oneLine s : oneLine (rev s) = oneLine s.
Proof.
  induction s as [|c s IH]; [reflexivity|].
  simpl. rewrite oneLine_app, IH. simpl. by rewrite andb_true_r, andb_comm.
Qed.

Lemma trim_oneLine s : oneLine s = true -> oneLine (trim s) = true.
Proof.
  intros H. unfold trim. rewrite rev_oneLine.
  apply dropWhile_oneLine. rewrite rev_oneLine. by apply dropWhile_oneLine.
Qed.

(** *** Facts about the description *)

Lemma headerCount_headerLines ls : headerCount ls = length (headerLines ls).
Proof.
  unfold headerCount, headerLines.
  induction ls as [|l ls IH]; [reflexivity|].
  simpl. destruct (isHeader (trim l)); simpl; by rewrite IH.
Qed.

Lemma sectionsFrom_titles n ls :
  List.map title (sectionsFrom n ls) = headerLines ls.
Proof.
  revert n. unfold headerLines.
  induction ls as [|l ls IH]; intros n; [reflexivity|].
  simpl. destruct (isHeader (trim l)); simpl; by rewrite IH.
Qed.

Lemma sectionsFrom_length n ls : length (sectionsFrom n ls) = headerCount ls.
Proof.
  rewrite headerCount_headerLines, <- (sectionsFrom_titles n).
  by rewrite length_map.
Qed.

Lemma sectionsFrom_Forall (P : ITemplateSection -> Prop) n ls :
  (forall (l : jsstring) (k : Z) (b : bool), isHeader (trim l) = true ->
     P {| title := trim l; placeholder := Some (defaultPlaceholder (trim l));
          order := k; type := if b then content else header |}) ->
  Forall P (sectionsFrom n ls).
Proof.
  intros HP. revert n.
  induction ls as [|l ls IH]; intros n; simpl; [constructor|].
  destruct (isHeader (trim l)) eqn:H; [|apply IH].
  constructor; [by apply HP|apply IH].
Qed.

Lemma hasBody_app_closed la lb :
  hasBody lb = false ->
  hasBody (la ++ lb) = hasBody la.
Proof.
  intros H. induction la as [|l la IH]; simpl; [exact H|].
  destruct (isHeader (trim l)); [reflexivity|]. by rewrite IH.
Qed.

Lemma sectionsFrom_app n la lb :
  hasBody lb = false ->
  sectionsFrom n (la ++ lb)
  = sectionsFrom n la ++ sectionsFrom (n + Z.of_nat (headerCount la)) lb.
Proof.
  intros H. revert n. unfold headerCount.
  induction la as [|l la IH]; intros n; simpl.
  - by rewrite Z.add_0_r.
  - destruct (isHeader (trim l)); simpl.
    + rewrite IH, (hasBody_app_closed _ _ H). do 3 f_equal. lia.
    + apply IH.
Qed.

Lemma sectionsFrom_no_header n la lb :
  headerCount la = 0%nat -> sectionsFrom n (la ++ lb) = sectionsFrom n lb.
Proof.
  unfold headerCount. induction la as [|l la IH]; simpl; [done|].
  destruct (isHeader (trim l)); simpl; [discriminate|exact IH].
Qed.

Lemma sectionsFrom_shift n k ls :
  sectionsFrom (n + k) ls
  = List.map (shiftOrder k) (sectionsFrom n ls).
Proof.
  revert n. induction ls as [|l ls IH]; intros n; simpl; [reflexivity|].
  destruct (isHeader (trim l)); simpl; [|apply IH].
  unfold shiftOrder at 1. simpl. f_equal. rewrite <- IH. f_equal. lia.
Qed.

Lemma hasBody_trimmedLines ls : hasBody (trimmedLines ls) = hasBody ls.
Proof.
  unfold trimmedLines. induction ls as [|l ls IH]; [reflexivity|].
  simpl. destruct (truthy (trim l)) eqn:T; simpl.
  - rewrite trim_idem, T, IH. reflexivity.
  - destruct (trim l) eqn:E; [|discriminate].
    rewrite isHeader_empty. exact IH.
Qed.

Lemma sectionsFrom_trimmedLines n ls :
  sectionsFrom n (trimmedLines ls) = sectionsFrom n ls.
Proof.
  revert n. induction ls as [|l ls IH]; intros n; [reflexivity|].
  unfold trimmedLines in *. simpl.
  destruct (truthy (trim l)) eqn:T; simpl.
  - rewrite trim_idem, !IH.
    fold (trimmedLines ls). rewrite hasBody_trimmedLines. reflexivity.
  - destruct (trim l) eqn:E; [|discriminate].
    rewrite isHeader_empty. apply IH.
Qed.

(** *** Further properties of [extractSections] *)

(** X1. [extractSections] written as a function of the lines: one section per
    header line, in order and numbered from 0, titled with the trimmed
    line, carrying the placeholder generated from the title, and of type
    content exactly when a line that is neither blank nor a header comes
    before the next header line; the default section when no line is a
    header. *)
Theorem extractSections_description text :
  extractSections text =
    match sectionsFrom 0 (split_nl text) with
    | [] => [defaultSection]
    | s :: ss => s :: ss
    end.
Proof. apply extractSections_sectionsFrom. Qed.

(** X2. The titles are the trimmed header lines of the text, in order; without
    a header line the only title is that of the default section. *)
Theorem extractSections_titles text :
  List.map title (extractSections text) =
    match headerLines (split_nl text) with
    | [] => [lit "전체 문서"]
    | t :: ts => t :: ts
    end.
Proof.
  rewrite extractSections_sectionsFrom, <- (sectionsFrom_titles 0).
  by destruct (sectionsFrom 0 (split_nl text)).
Qed.

(** X3. The number of sections is the number of header lines, and 1 when there
    is none. *)
Theorem extractSections_length text :
  length (extractSections text)
  = Nat.max 1 (headerCount (split_nl text)).
Proof.
  rewrite extractSections_sectionsFrom, <- (sectionsFrom_length 0).
  destruct (sectionsFrom 0 (split_nl text)); simpl; lia.
Qed.

(** X4. Body text never reaches a placeholder: a section is the default section
    or carries the placeholder generated from its own title. *)
Theorem extractSections_placeholder_generated text :
  Forall (fun s => s = defaultSection
                   \/ placeholder s = Some (defaultPlaceholder (title s)))
    (extractSections text).
Proof.
  rewrite extractSections_sectionsFrom.
  pose proof (sectionsFrom_Forall
    (fun s => s = defaultSection
              \/ placeholder s = Some (defaultPlaceholder (title s)))
    0 (split_nl text)) as H.
  destruct (sectionsFrom 0 (split_nl text)).
  - constructor; [by left|constructor].
  - apply H. intros; by right.
Qed.

(** X5. A section is of type header or content; table, list and image are
    never assigned. A title is a header line, unless it is the title of
    the default section, and has no white space at either end. *)
Theorem extractSections_types_titles text :
  Forall (fun s => (type s = header \/ type s = content)
                   /\ (s = defaultSection \/ isHeader (title s) = true)
                   /\ trim (title s) = title s /\ title s <> [])
    (extractSections text).
Proof.
  rewrite extractSections_sectionsFrom.
  pose proof (sectionsFrom_Forall
    (fun s => (type s = header \/ type s = content)
              /\ (s = defaultSection \/ isHeader (title s) = true)
              /\ trim (title s) = title s /\ title s <> [])
    0 (split_nl text)) as H.
  destruct (sectionsFrom 0 (split_nl text)).
  - constructor; [|constructor].
    split; [by right|]. split; [by left|]. split; [|done].
    vm_compute. reflexivity.
  - apply H. intros line k b Ht. simpl.
    split; [destruct b; [by right|by left]|]. split; [by right|].
    split; [apply trim_idem|].
    intros E. by rewrite E, isHeader_empty in Ht.
Qed.

(** X6. Lines before the first header line are dropped: a text whose lines
    hold no header, put in front of another text, changes nothing. *)
Theorem extractSections_preamble a b :
  headerCount (split_nl a) = 0%nat ->
  extractSections (a ++ 10 :: b) = extractSections b.
Proof.
  intros H. rewrite !extractSections_sectionsFrom, split_nl_app.
  by rewrite (sectionsFrom_no_header _ _ _ H).
Qed.

Lemma extractSections_preamble_witness :
  extractSections (lit "Quarterly report
draft, do not circulate" ++ 10 :: lit "1. Scope
all regions")
  = extractSections (lit "1. Scope
all regions").
Proof.
  apply extractSections_preamble. vm_compute. reflexivity.
Defined.

(** X7. Only the trimmed non-blank lines matter: two texts with the same ones
    are segmented alike, whatever their blank lines and indentation. *)
Theorem extractSections_whitespace a b :
  trimmedLines (split_nl a) = trimmedLines (split_nl b) ->
  extractSections a = extractSections b.
Proof.
  intros H. rewrite !extractSections_sectionsFrom.
  rewrite <- (sectionsFrom_trimmedLines 0 (split_nl a)), H.
  by rewrite sectionsFrom_trimmedLines.
Qed.

Lemma extractSections_whitespace_witness :
  extractSections (lit "  1. Scope

     all regions  
")
  = extractSections (lit "1. Scope
all regions").
Proof.
  apply extractSections_whitespace. vm_compute. reflexivity.
Defined.

(** X8. Two texts that both have header lines, the second one starting with a
    header line (after blank lines at most), joined by a line feed: the
    sections of the first, then those of the second with their orders
    continued. *)
Theorem extractSections_concat a b :
  headerCount (split_nl a) <> 0%nat ->
  headerCount (split_nl b) <> 0%nat ->
  hasBody (split_nl b) = false ->
  extractSections (a ++ 10 :: b)
  = extractSections a
    ++ List.map (shiftOrder (Z.of_nat (length (extractSections a))))
         (extractSections b).
Proof.
  intros Ha Hb Hbody.
  rewrite (extractSections_sectionsFrom a), (extractSections_sectionsFrom b).
  rewrite extractSections_sectionsFrom, split_nl_app.
  rewrite (sectionsFrom_app _ _ _ Hbody), sectionsFrom_shift.
  rewrite <- (sectionsFrom_length 0) in Ha, Hb.
  rewrite <- (sectionsFrom_length 0 (split_nl a)).
  destruct (sectionsFrom 0 (split_nl a)) as [|sa la]; [done|].
  destruct (sectionsFrom 0 (split_nl b)) as [|sb lb]; [done|].
  reflexivity.
Qed.

Lemma extractSections_concat_witness :
  extractSections (lit "1. Scope
all regions" ++ 10 :: lit "
2. Risks
# Notes")
  = extractSections (lit "1. Scope
all regions")
    ++ List.map (shiftOrder 1) (extractSections (lit "
2. Risks
# Notes")).
Proof.
  apply (extractSections_concat (lit "1. Scope
all regions") (lit "
2. Risks
# Notes")); vm_compute; congruence.
Defined.

End SegmenterMore.

(** * Header classification *)

Section HeaderForms.

Import FileParserService.

(** *** The matcher *)

Lemma many_intro p l h k pre rest :
  forallb p pre = true -> (l <= length pre)%nat -> within (length pre) h ->
  k rest = true ->
  many p l h k (pre ++ rest) = true.
Proof.
  revert l h. induction pre as [|c pre IH]; intros l h Hp Hl Hh Hk.
  - simpl in *. assert (l = 0%nat) as -> by lia.
    destruct rest as [|c s]; simpl; [exact Hk|].
    destruct (p c && room h); [|exact Hk].
    destruct (many _ _ _ _ _); [reflexivity|exact Hk].
  - simpl in Hp. apply andb_true_iff in Hp as [Hc Hp].
    cbn [app many]. rewrite Hc.
    assert (room h = true) as -> by (destruct h as [[|m]|]; simpl in *; [lia|done..]).
    rewrite IH; [reflexivity|exact Hp|simpl in Hl; lia| |exact Hk].
    destruct h as [m|]; simpl in *; [lia|done].
Qed.

Lemma many_elim p l h k s :
  many p l h k s = true ->
  exists pre rest,
    s = pre ++ rest /\ forallb p pre = true /\ (l <= length pre)%nat
    /\ within (length pre) h /\ k rest = true.
Proof.
  revert l h. induction s as [|c s IH]; intros l h H.
  - simpl in H. destruct l; [|discriminate].
    exists [], []. repeat split; try done. destruct h; simpl; [lia|done].
  - cbn [many] in H.
    assert (Hz : isZero l = true -> k (c :: s) = true ->
                 exists pre rest,
                   c :: s = pre ++ rest /\ forallb p pre = true
                   /\ (l <= length pre)%nat /\ within (length pre) h
                   /\ k rest = true).
    { intros Hl Hk. destruct l; [|discriminate].
      exists [], (c :: s). repeat split; try done.
      destruct h; simpl; [lia|done]. }
    destruct (p c && room h) eqn:E.
    + destruct (many p (Nat.pred l) (less h) k s) eqn:M.
      * apply andb_true_iff in E as [Hc Hr].
        destruct (IH _ _ M) as (pre & rest & -> & Hp & Hl & Hh & Hk).
        exists (c :: pre), rest. simpl. rewrite Hc, Hp.
        repeat split; try done; [lia|].
        destruct h as [[|m]|]; simpl in *; [discriminate|lia|done].
      * destruct (isZero l) eqn:Z; [by apply Hz|discriminate].
    + destruct (isZero l) eqn:Z; [by apply Hz|discriminate].
Qed.

Lemma isHeader_pattern r line :
  In r headerPatterns -> test r line = true -> isHeader line = true.
Proof.
  intros Hin Ht. unfold isHeader. apply orb_true_iff. left.
  apply existsb_exists. by exists r.
Qed.

Lemma many_reject p l h k c s :
  p c = false -> l <> 0%nat -> many p l h k (c :: s) = false.
Proof. intros Hc Hl. simpl. rewrite Hc. by destruct l. Qed.

Ltac take pre :=
  apply (many_intro _ _ _ _ pre);
  [ try assumption; try reflexivity
  | simpl; try lia
  | simpl; try lia; try exact I
  | ].

(** *** Lines that are headers *)

(** X9. A list item is a header: a marker (digits, one capital letter or one
    Hangul syllable), a period, white space, and at least one more code
    unit that is no line terminator. *)
Theorem list_item_is_header marker ws c tail :
  isListMarker marker = true ->
  truthy ws = true -> forallb isWhiteSpace ws = true ->
  dot c = true ->
  isHeader (marker ++ 46 :: ws ++ c :: tail) = true.
Proof.
  intros Hm Hws1 Hws2 Hc.
  assert (Hlen : (1 <= length ws)%nat) by (destruct ws; [discriminate|simpl; lia]).
  assert (Htail : matchSeq [one (chr 46); plus isWhiteSpace; plus dot]
                    (fun _ => true) (46 :: ws ++ c :: tail) = true).
  { cbn [matchSeq cls lo hi one plus].
    take [46]. take ws. take [c]. - cbn [forallb]. by rewrite Hc. - reflexivity. }
  unfold isListMarker in Hm. apply orb_true_iff in Hm as [Hm|Hm].
  - apply andb_true_iff in Hm as [Hm1 Hm2].
    apply (isHeader_pattern (nth 0 headerPatterns (Build_RegExp [] false)));
      [simpl; tauto|].
    unfold test. cbn [nth headerPatterns body toEnd matchSeq cls lo hi one plus].
    take marker.
    + destruct marker; [discriminate|simpl; lia].
    + exact Htail.
  - destruct marker as [|m [|? ?]]; try discriminate.
    apply orb_true_iff in Hm as [Hm|Hm].
    + apply (isHeader_pattern (nth 2 headerPatterns (Build_RegExp [] false)));
        [simpl; tauto|].
      unfold test. cbn [nth headerPatterns body toEnd matchSeq cls lo hi one plus].
      take [m]; [cbn [forallb]; by rewrite Hm|].
      exact Htail.
    + apply (isHeader_pattern (nth 1 headerPatterns (Build_RegExp [] false)));
        [simpl; tauto|].
      unfold test. cbn [nth headerPatterns body toEnd matchSeq cls lo hi one plus].
      take [m]; [cbn [forallb]; by rewrite Hm|].
      exact Htail.
Qed.

Lemma list_item_is_header_witness :
  isHeader (lit "12" ++ 46 :: lit "  " ++ 83 :: lit "cope") = true
  /\ isHeader (lit "가" ++ 46 :: lit " " ++ 48276 :: lit "위") = true.
Proof.
  split.
  - apply (list_item_is_header (lit "12") (lit "  ") 83 (lit "cope"));
      vm_compute; reflexivity.
  - apply (list_item_is_header (lit "가") (lit " ") 48276 (lit "위"));
      vm_compute; reflexivity.
Defined.

(** X10. A markdown heading is a header: one to six hashes, white space, and at
    least one more code unit that is no line terminator. *)
Theorem markdown_heading_is_header n ws c tail :
  (1 <= n <= 6)%nat ->
  truthy ws = true -> forallb isWhiteSpace ws = true ->
  dot c = true ->
  isHeader (repeat 35 n ++ ws ++ c :: tail) = true.
Proof.
  intros Hn Hws1 Hws2 Hc.
  assert (Hlen : (1 <= length ws)%nat) by (destruct ws; [discriminate|simpl; lia]).
  apply (isHeader_pattern (nth 3 headerPatterns (Build_RegExp [] false)));
    [simpl; tauto|].
  unfold test. cbn [nth headerPatterns body toEnd matchSeq cls lo hi one plus rep].
  take (repeat 35 n).
  - apply forallb_forall. intros x Hx. apply repeat_spec in Hx. by subst.
  - rewrite repeat_length. lia.
  - rewrite repeat_length. lia.
  - take ws. take [c]; [cbn [forallb]; by rewrite Hc|reflexivity].
Qed.

Lemma markdown_heading_is_header_witness :
  isHeader (repeat 35 3 ++ lit " " ++ 82 :: lit "isks and costs") = true.
Proof.
  apply (markdown_heading_is_header 3 (lit " ") 82 (lit "isks and costs"));
    [lia|vm_compute; reflexivity..].
Defined.

(** X11. A line of one to fifty code units, none a line terminator, followed by
    a closing colon is a header. *)
Theorem colon_line_is_header label :
  (1 <= length label <= 50)%nat ->
  forallb dot label = true ->
  isHeader (label ++ [58]) = true.
Proof.
  intros Hlen Hdot.
  apply (isHeader_pattern (nth 4 headerPatterns (Build_RegExp [] false)));
    [simpl; tauto|].
  unfold test. cbn [nth headerPatterns body toEnd matchSeq cls lo hi one rep].
  take label. take [58]. reflexivity.
Qed.

Lemma colon_line_is_header_witness :
  isHeader (lit "Next steps" ++ [58]) = true.
Proof.
  apply (colon_line_is_header (lit "Next steps")); [simpl; lia|].
  vm_compute. reflexivity.
Defined.

(** X12. A line that opens with a bracket ([, ], 【 or 】), goes on with at
    least one code unit that is no line terminator, and then has a bracket
    [, ] or 】 is a header, whatever follows. *)
Theorem bracket_line_is_header o inner cl tail :
  oneOf [91; 93; 12304; 12305] o = true ->
  truthy inner = true -> forallb dot inner = true ->
  oneOf [91; 93; 12305] cl = true ->
  isHeader (o :: inner ++ cl :: tail) = true.
Proof.
  intros Ho Hi1 Hi2 Hc.
  assert (Hlen : (1 <= length inner)%nat)
    by (destruct inner; [discriminate|simpl; lia]).
  apply (isHeader_pattern (nth 5 headerPatterns (Build_RegExp [] false)));
    [simpl; tauto|].
  unfold test.
  cbn [nth headerPatterns body toEnd matchSeq cls lo hi one plus star].
  take [o]; [cbn [forallb]; by rewrite Ho|].
  take (@nil N). take inner. take (@nil N).
  take [cl]; [cbn [forallb]; by rewrite Hc|reflexivity].
Qed.

Lemma bracket_line_is_header_witness :
  isHeader (12304 :: lit "Summary" ++ 12305 :: lit " (draft)") = true.
Proof.
  apply (bracket_line_is_header 12304 (lit "Summary") 12305 (lit " (draft)"));
    vm_compute; reflexivity.
Defined.

(** *** Lines that are not headers *)

(** X13. A line is no header when it holds none of the five keywords, does not
    end with a colon, and does not begin with a digit, a capital Latin
    letter, a Hangul syllable, a hash or a bracket. *)
Theorem plain_line_is_not_header c s :
  opensPattern c = false ->
  list.last (c :: s) <> Some 58 ->
  hasKeyword (c :: s) = false ->
  isHeader (c :: s) = false.
Proof.
  intros Ho Hl Hk.
  unfold opensPattern in Ho.
  repeat (apply orb_false_iff in Ho as [Ho ?]).
  unfold hasKeyword in Hk. cbn [existsb] in Hk.
  repeat (apply orb_false_iff in Hk as [? Hk]).
  unfold isHeader.
  repeat match goal with
         | H : includes _ _ = false |- _ => rewrite H
         end.
  rewrite andb_false_r. cbn [orb]. rewrite orb_false_r.
  unfold headerPatterns, test.
  cbn [existsb body toEnd matchSeq cls lo hi one plus star rep].
  rewrite (many_reject digit), (many_reject (range 44032 55203)),
    (many_reject (range 65 90)), (many_reject (chr 35)),
    (many_reject (oneOf [91; 93; 12304; 12305]))
    by (assumption || discriminate).
  cbn [orb]. rewrite orb_false_r.
  destruct (many dot 1 (Some 50%nat) _ (c :: s)) eqn:M; [|reflexivity].
  exfalso. apply Hl.
  apply many_elim in M as (pre & rest & E & _ & _ & _ & M).
  apply many_elim in M as (pre2 & rest2 & -> & Hp & Hl1 & Hl2 & M).
  destruct rest2; [|discriminate].
  destruct pre2 as [|x [|? ?]]; simpl in Hl1, Hl2; try lia.
  simpl in Hp. rewrite andb_true_r in Hp. apply N.eqb_eq in Hp. subst x.
  rewrite E, app_nil_r. apply last_snoc.
Qed.

Lemma plain_line_is_not_header_witness :
  isHeader (114 :: lit "evenue grew by 4% in the third quarter") = false.
Proof.
  apply (plain_line_is_not_header 114 (lit "evenue grew by 4% in the third quarter"));
    vm_compute; congruence.
Defined.

End HeaderForms.

(** * Further properties of the report generator *)

Section GeneratorMore.

Import ReportGeneratorService ReportController.

(** *** When [JSON.stringify] throws *)

Lemma systemPrompt_outcome t userPrompt context :
  if serializable context
  then exists sp, systemPrompt t userPrompt context = Normal sp
  else exists props m,
         context = Some props
         /\ JSON.stringify (JObj props) = Throw m
         /\ systemPrompt t userPrompt context = Throw m.
Proof.
  unfold systemPrompt, serializable.
  destruct context as [props|]; [|by eexists].
  destruct (JSON.stringify (JObj props)) as [json|m] eqn:E.
  - eexists. reflexivity.
  - exists props, m. split; [reflexivity|]. split; [exact E|reflexivity].
Qed.

(** The three ends of [generateReport]. *)
Lemma generateReport_cases env request st :
  (templates st !! templateId request = None
   /\ generateReport env request st = (failure (lit "Template not found"), st))
  \/ (exists r props m,
        templates st !! templateId request = Some r
        /\ serializable (context request) = false
        /\ context request = Some props
        /\ JSON.stringify (JObj props) = Throw m
        /\ generateReport env request st =
             (failure m,
              {| objects := objects st;
                 templates := templates st;
                 reports := <[uuid env := processingReport env request r]>
                              (reports st) |}))
  \/ (exists r text,
        templates st !! templateId request = Some r
        /\ serializable (context request) = true
        /\ text = unlines (reportLines env (objects st r) (prompt request)
                             (sortByOrder (ITemplate.sections (objects st r))))
        /\ generateReport env request st =
             ({| IGenerateResponse.reportId := uuid env;
                 IGenerateResponse.status := rs_completed;
                 IGenerateResponse.content := Some text;
                 IGenerateResponse.error := None |},
              {| objects :=
                   <[r := setSections (objects st r)
                            (sortByOrder (ITemplate.sections (objects st r)))]>
                     (objects st);
                 templates := templates st;
                 reports := <[uuid env := completedReport env request r text]>
                              (<[uuid env := processingReport env request r]>
                                 (reports st)) |})).
Proof.
  destruct (templates st !! templateId request) as [r|] eqn:Hr.
  - right.
    pose proof (systemPrompt_outcome (objects st r) (prompt request)
                  (context request)) as Hs.
    destruct (serializable (context request)).
    + right. destruct Hs as [sp Hs].
      destruct (generateContentForTemplate env r (prompt request)
                  (context request) (objects st)) as [c objs] eqn:G.
      pose proof G as G'. unfold generateContentForTemplate in G'.
      rewrite Hs in G'. injection G' as <- <-.
      pose proof (generateContent_lines _ _ _ _ _ _ _ G) as Hl.
      eexists r, _. split; [reflexivity|]. split; [reflexivity|].
      split; [reflexivity|].
      unfold generateReport. rewrite Hr, G, <- Hl. reflexivity.
    + left. destruct Hs as (props & m & Hc & Hj & Hs). exists r, props, m.
      split; [reflexivity|]. split; [reflexivity|]. split; [exact Hc|].
      split; [exact Hj|]. by apply generateReport_throw.
  - left. split; [reflexivity|]. by apply generateReport_unknown.
Qed.

(** *** Outcomes *)

(** X14. [generateReport] answers completed exactly when the template is
    registered and [JSON.stringify] accepts the context (there is nothing
    to accept when the request has none); it answers failed otherwise,
    and never started. A completed answer carries the drawn uuid and the
    content and no error; a failed one carries the empty reportId, an
    error and no content, and the error is "Template not found" when the
    template is not registered. *)
Theorem generateReport_response env request st :
  let response := (generateReport env request st).1 in
  IGenerateResponse.status response =
    match templates st !! templateId request with
    | Some _ =>
        if serializable (context request) then rs_completed else rs_failed
    | None => rs_failed
    end
  /\ (templates st !! templateId request = None ->
      IGenerateResponse.error response = Some (lit "Template not found"))
  /\ match IGenerateResponse.status response with
     | rs_completed =>
         IGenerateResponse.reportId response = uuid env
         /\ is_Some (IGenerateResponse.content response)
         /\ IGenerateResponse.error response = None
     | rs_failed =>
         IGenerateResponse.reportId response = lit ""
         /\ IGenerateResponse.content response = None
         /\ is_Some (IGenerateResponse.error response)
     | started => False
     end.
Proof.
  destruct (generateReport_cases env request st)
    as [[Hr ->]|[(r & props & m & Hr & Hs & Hctx & Hj & ->)
                |(r & text & Hr & Hs & _ & ->)]];
    cbv zeta; rewrite Hr; try rewrite Hs;
    cbn [fst failure IGenerateResponse.status IGenerateResponse.error
         IGenerateResponse.reportId IGenerateResponse.content].
  - split; [reflexivity|]. split; [reflexivity|].
    split; [reflexivity|]. split; [reflexivity|]. by eexists.
  - split; [reflexivity|]. split; [discriminate|].
    split; [reflexivity|]. split; [reflexivity|]. by eexists.
  - split; [reflexivity|]. split; [discriminate|].
    split; [reflexivity|]. split; [by eexists|reflexivity].
Qed.

(** X15. A completed answer can be read back: the reports registry holds, under
    the returned reportId, a completed report with the returned content,
    the requested title, the template and both time stamps. *)
Theorem generateReport_getReport env request st :
  IGenerateResponse.status (generateReport env request st).1 = rs_completed ->
  exists r text,
    templates st !! templateId request = Some r
    /\ IGenerateResponse.content (generateReport env request st).1 = Some text
    /\ getReport (IGenerateResponse.reportId (generateReport env request st).1)
         (generateReport env request st).2
       = Some (completedReport env request r text).
Proof.
  destruct (generateReport_cases env request st)
    as [[Hr ->]|[(r & props & m & Hr & Hs & Hctx & Hj & ->)|(r & text & Hr & Hs & _ & ->)]];
    try discriminate.
  intros _. exists r, text. split; [exact Hr|]. split; [reflexivity|].
  unfold getReport. simpl. apply lookup_insert_eq.
Qed.

Lemma generateReport_getReport_witness :
  let request := sampleRequest (lit "t1") None in
  let st := sampleStore [sampleSection (lit "1. Goals") (lit "[goals]") 0 header] in
  exists r text,
    templates st !! templateId request = Some r
    /\ IGenerateResponse.content (generateReport sampleAmbient request st).1
       = Some text
    /\ getReport
         (IGenerateResponse.reportId (generateReport sampleAmbient request st).1)
         (generateReport sampleAmbient request st).2
       = Some (completedReport sampleAmbient request r text).
Proof.
  intros request st.
  apply (generateReport_getReport sampleAmbient request st).
  vm_compute. reflexivity.
Defined.

(** X16. What [generateReport] leaves alone, whatever its outcome: the
    templates registry; every report but the one under the identifier it
    drew; every template object but the requested one; and of the
    requested template everything but the arrangement of its sections. *)
Theorem generateReport_frame env request st :
  let st' := (generateReport env request st).2 in
  templates st' = templates st
  /\ (forall id, id <> uuid env -> reports st' !! id = reports st !! id)
  /\ (forall r, templates st !! templateId request <> Some r ->
                objects st' r = objects st r)
  /\ (forall r,
        ITemplate.filename (objects st' r) = ITemplate.filename (objects st r)
        /\ ITemplate.type (objects st' r) = ITemplate.type (objects st r)
        /\ ITemplate.content (objects st' r) = ITemplate.content (objects st r)
        /\ Permutation (ITemplate.sections (objects st' r))
                       (ITemplate.sections (objects st r))).
Proof.
  destruct (generateReport_cases env request st)
    as [[Hr ->]|[(r & props & m & Hr & Hs & Hctx & Hj & ->)|(r & text & Hr & Hs & _ & ->)]];
    cbv zeta; cbn [snd templates reports objects].
  - by repeat split.
  - split; [reflexivity|]. split; [|by repeat split].
    intros id Hid. by rewrite lookup_insert_ne.
  - split; [reflexivity|]. split; [|split].
    + intros id Hid. by rewrite !lookup_insert_ne.
    + intros r' Hr'. apply fn_lookup_insert_ne. congruence.
    + intros r'. destruct (decide (r = r')) as [<-|Hne].
      * rewrite fn_lookup_insert. cbn.
        repeat split. apply sortByOrder_perm.
      * rewrite fn_lookup_insert_ne by exact Hne. by repeat split.
Qed.

(** *** What the content depends on *)

Lemma generateReport_completed env request st :
  IGenerateResponse.status (generateReport env request st).1 = rs_completed ->
  exists r,
    templates st !! templateId request = Some r
    /\ serializable (context request) = true
    /\ IGenerateResponse.content (generateReport env request st).1
       = Some (unlines (reportLines env (objects st r) (prompt request)
                          (sortByOrder (ITemplate.sections (objects st r)))))
    /\ forall r',
         objects (generateReport env request st).2 r'
         = <[r := setSections (objects st r)
                    (sortByOrder (ITemplate.sections (objects st r)))]>
             (objects st) r'.
Proof.
  destruct (generateReport_cases env request st)
    as [[Hr ->]|[(r & props & m & Hr & Hs & Hctx & Hj & ->)|(r & text' & Hr & Hs & Ht & ->)]];
    try discriminate.
  intros _. exists r. rewrite Ht. by repeat split.
Qed.

(** X17. The context has no part in the content: two completed requests for the
    same template with the same prompt get the same content, whatever
    their titles and contexts. *)
Theorem generateReport_content_ignores_context env st id userPrompt
    title1 context1 title2 context2 :
  let request1 :=
    {| templateId := id; req_title := title1; prompt := userPrompt;
       context := context1 |} in
  let request2 :=
    {| templateId := id; req_title := title2; prompt := userPrompt;
       context := context2 |} in
  IGenerateResponse.status (generateReport env request1 st).1 = rs_completed ->
  IGenerateResponse.status (generateReport env request2 st).1 = rs_completed ->
  IGenerateResponse.content (generateReport env request1 st).1
  = IGenerateResponse.content (generateReport env request2 st).1.
Proof.
  intros request1 request2 H1 H2.
  apply generateReport_completed in H1 as (r1 & Hr1 & _ & -> & _).
  apply generateReport_completed in H2 as (r2 & Hr2 & _ & -> & _).
  simpl in *. congruence.
Qed.

Lemma generateReport_content_ignores_context_witness :
  let st := sampleStore [sampleSection (lit "1. Goals") (lit "[goals]") 0 content] in
  IGenerateResponse.content
    (generateReport sampleAmbient
       {| templateId := lit "t1"; req_title := lit "Q3";
          prompt := lit "sales"; context := None |} st).1
  = IGenerateResponse.content
      (generateReport sampleAmbient
         {| templateId := lit "t1"; req_title := lit "Q4";
            prompt := lit "sales";
            context := Some [(lit "region", JStr (lit "EMEA"))] |} st).1.
Proof.
  intros st.
  apply (generateReport_content_ignores_context sampleAmbient st (lit "t1")
           (lit "sales") (lit "Q3") None (lit "Q4")
           (Some [(lit "region", JStr (lit "EMEA"))]));
    vm_compute; reflexivity.
Defined.

Lemma blockLines_prompt p1 p2 s :
  type s <> content -> blockLines p1 s = blockLines p2 s.
Proof. intros H. unfold blockLines. by destruct (type s). Qed.

(** X18. The prompt reaches the content through sections of type content only:
    for a template without such a section, two completed requests get the
    same content whatever their prompts. *)
Theorem generateReport_content_ignores_prompt env st r request1 request2 :
  templates st !! templateId request1 = Some r ->
  templateId request2 = templateId request1 ->
  Forall (fun s => type s <> content) (ITemplate.sections (objects st r)) ->
  IGenerateResponse.status (generateReport env request1 st).1 = rs_completed ->
  IGenerateResponse.status (generateReport env request2 st).1 = rs_completed ->
  IGenerateResponse.content (generateReport env request1 st).1
  = IGenerateResponse.content (generateReport env request2 st).1.
Proof.
  intros Hr E Hty H1 H2.
  apply generateReport_completed in H1 as (r1 & Hr1 & _ & -> & _).
  apply generateReport_completed in H2 as (r2 & Hr2 & _ & -> & _).
  rewrite E in Hr2. rewrite Hr in Hr1, Hr2.
  injection Hr1 as <-. injection Hr2 as <-.
  unfold reportLines. do 5 f_equal.
  apply map_ext_in. intros s Hs. apply blockLines_prompt.
  apply (Permutation_in _ (sortByOrder_perm _)) in Hs.
  rewrite List.Forall_forall in Hty. by apply Hty.
Qed.

Lemma generateReport_content_ignores_prompt_witness :
  let st := sampleStore [sampleSection (lit "1. Goals") (lit "[goals]") 0 header;
                         sampleSection (lit "2. Figures") (lit "[figures]") 1 table] in
  IGenerateResponse.content
    (generateReport sampleAmbient (sampleRequest (lit "t1") None) st).1
  = IGenerateResponse.content
      (generateReport sampleAmbient
         {| templateId := lit "t1"; req_title := lit "Q3";
            prompt := lit "costs"; context := None |} st).1.
Proof.
  intros st.
  apply (generateReport_content_ignores_prompt sampleAmbient st 1%positive).
  - vm_compute. reflexivity.
  - reflexivity.
  - repeat constructor; discriminate.
  - vm_compute. reflexivity.
  - vm_compute. reflexivity.
Defined.

(** *** Repeated calls *)

Lemma sortByOrder_idem l : sortByOrder (sortByOrder l) = sortByOrder l.
Proof. apply sortByOrder_sorted_id, sortByOrder_sorted. Qed.

Lemma setSections_same t : setSections t (ITemplate.sections t) = t.
Proof. by destruct t. Qed.

(** X19. A second completed call for the same request changes no template any
    more, keeps the report of the first call beside its own when the two
    identifiers differ, and writes the same content when the locale date
    reads the same. *)
Theorem generateReport_twice env1 env2 request st :
  let st1 := (generateReport env1 request st).2 in
  let st2 := (generateReport env2 request st1).2 in
  IGenerateResponse.status (generateReport env1 request st).1 = rs_completed ->
  IGenerateResponse.status (generateReport env2 request st1).1 = rs_completed
  /\ (forall r, objects st2 r = objects st1 r)
  /\ (uuid env1 <> uuid env2 ->
      getReport (uuid env1) st2 = getReport (uuid env1) st1
      /\ is_Some (getReport (uuid env1) st2)
      /\ is_Some (getReport (uuid env2) st2))
  /\ (localeNow env1 = localeNow env2 ->
      IGenerateResponse.content (generateReport env2 request st1).1
      = IGenerateResponse.content (generateReport env1 request st).1).
Proof.
  cbv zeta.
  destruct (generateReport_cases env1 request st)
    as [[Hr ->]|[(r & props & m & Hr & Hs & Hctx & Hj & ->)|(r & text & Hr & Hs & Ht & ->)]];
    try discriminate.
  intros _. cbn [fst snd].
  set (st1 := {| objects := _; templates := templates st; reports := _ |}).
  destruct (generateReport_cases env2 request st1)
    as [[Hr2 E]|[(r2 & ? & ? & Hr2 & Hs2 & _ & _ & E)|(r2 & text2 & Hr2 & Hs2 & Ht2 & E)]];
    cbn [templates st1] in Hr2; try congruence.
  rewrite Hr in Hr2. injection Hr2 as <-. rewrite E. cbn [fst snd objects].
  assert (Hr1 : objects st1 r
                = setSections (objects st r)
                    (sortByOrder (ITemplate.sections (objects st r))))
    by apply fn_lookup_insert.
  split; [reflexivity|]. split; [|split].
  - intros r'. destruct (decide (r = r')) as [<-|Hne].
    + rewrite fn_lookup_insert, Hr1. cbn. by rewrite sortByOrder_idem.
    + by rewrite fn_lookup_insert_ne.
  - intros Hne. unfold getReport. cbn [reports st1].
    rewrite !(lookup_insert_ne _ (uuid env2)) by congruence.
    rewrite !lookup_insert_eq. by repeat split.
  - intros Hl. rewrite Ht, Ht2, Hr1. cbn [ITemplate.sections setSections].
    rewrite sortByOrder_idem. unfold reportLines.
    cbn [ITemplate.filename setSections]. by rewrite Hl.
Qed.

Lemma generateReport_twice_witness :
  let env2 :=
    {| uuid := lit "c4a760a8-dbcf-4e1c-9f1a-0a1b2c3d4e5f";
       createdAt := createdAt sampleAmbient;
       localeNow := localeNow sampleAmbient;
       completedAt := completedAt sampleAmbient |} in
  let request := sampleRequest (lit "t1") None in
  let st := sampleStore [sampleSection (lit "2. Risks") (lit "[risks]") 1 content;
                         sampleSection (lit "1. Goals") (lit "[goals]") 0 header] in
  let st1 := (generateReport sampleAmbient request st).2 in
  let st2 := (generateReport env2 request st1).2 in
  IGenerateResponse.status (generateReport env2 request st1).1 = rs_completed
  /\ (forall r, objects st2 r = objects st1 r)
  /\ (uuid sampleAmbient <> uuid env2 ->
      getReport (uuid sampleAmbient) st2 = getReport (uuid sampleAmbient) st1
      /\ is_Some (getReport (uuid sampleAmbient) st2)
      /\ is_Some (getReport (uuid env2) st2))
  /\ (localeNow sampleAmbient = localeNow env2 ->
      IGenerateResponse.content (generateReport env2 request st1).1
      = IGenerateResponse.content (generateReport sampleAmbient request st).1).
Proof.
  intros env2 request st.
  apply (generateReport_twice sampleAmbient env2 request st).
  vm_compute. reflexivity.
Defined.

(** *** Templates that come from the segmenter *)

Lemma sectionsFrom_lower n ls :
  Forall (fun s => (n <= order s)%Z) (sectionsFrom n ls).
Proof.
  revert n. induction ls as [|l ls IH]; intros n; simpl; [constructor|].
  destruct (FileParserService.isHeader (trim l)); [|apply IH].
  constructor; [simpl; lia|].
  eapply List.Forall_impl; [|apply IH]. simpl. intros; lia.
Qed.

Lemma sectionsFrom_sorted n ls : StronglySorted byOrder (sectionsFrom n ls).
Proof.
  revert n. induction ls as [|l ls IH]; intros n; simpl; [constructor|].
  destruct (FileParserService.isHeader (trim l)); [|apply IH].
  constructor; [apply IH|].
  eapply List.Forall_impl; [|apply sectionsFrom_lower].
  unfold byOrder. simpl. intros; lia.
Qed.

Lemma extractSections_sorted text :
  StronglySorted byOrder (FileParserService.extractSections text).
Proof.
  rewrite extractSections_sectionsFrom.
  pose proof (sectionsFrom_sorted 0 (split_nl text)) as H.
  destruct (sectionsFrom 0 (split_nl text)); [repeat constructor|exact H].
Qed.

Lemma plain_opened l b k :
  oneLine l = true ->
  plainSection
    {| title := trim l;
       placeholder := Some (FileParserService.defaultPlaceholder (trim l));
       order := k; type := if b : bool then content else header |} = true.
Proof.
  intros H. apply trim_oneLine in H.
  unfold plainSection, FileParserService.defaultPlaceholder.
  cbn [title placeholder show]. rewrite !oneLine_app, H.
  assert (H1 : oneLine (lit "[") = true) by (vm_compute; reflexivity).
  assert (H2 : oneLine (lit " 내용을 입력하세요]") = true) by (vm_compute; reflexivity).
  rewrite H1, H2. cbn [andb].
  generalize (trim l ++ lit " 내용을 입력하세요]"). intros rest.
  vm_compute. reflexivity.
Qed.

Lemma sectionsFrom_plain n ls :
  Forall (fun l => oneLine l = true) ls ->
  Forall (fun s => plainSection s = true) (sectionsFrom n ls).
Proof.
  intros H. revert n. induction H as [|l ls Hl _ IH]; intros n; simpl;
    [constructor|].
  destruct (FileParserService.isHeader (trim l)); [|apply IH].
  constructor; [by apply plain_opened|apply IH].
Qed.

Lemma extractSections_plain text :
  Forall (fun s => plainSection s = true)
    (FileParserService.extractSections text).
Proof.
  rewrite extractSections_sectionsFrom.
  pose proof (sectionsFrom_plain 0 _ (split_nl_oneLine text)) as H.
  destruct (sectionsFrom 0 (split_nl text)); [|exact H].
  constructor; [vm_compute; reflexivity|constructor].
Qed.

(** X20. A template whose sections come from [extractSections] is left as it
    is by [generateReport], whatever the outcome: its sections are in
    ascending order already. *)
Theorem generateReport_keeps_segmented_template env request st r text :
  templates st !! templateId request = Some r ->
  ITemplate.sections (objects st r) = FileParserService.extractSections text ->
  forall r', objects (generateReport env request st).2 r' = objects st r'.
Proof.
  intros Hr Hsec r'.
  destruct (generateReport_cases env request st)
    as [[_ ->]|[(r1 & ? & ? & _ & _ & _ & _ & ->)|(r1 & t1 & Hr1 & _ & _ & ->)]];
    try reflexivity.
  cbn [snd objects]. rewrite Hr in Hr1. injection Hr1 as <-.
  destruct (decide (r = r')) as [<-|Hne].
  - rewrite fn_lookup_insert.
    rewrite (sortByOrder_sorted_id (ITemplate.sections (objects st r))).
    + apply setSections_same.
    + rewrite Hsec. apply extractSections_sorted.
  - by rewrite fn_lookup_insert_ne.
Qed.

Lemma generateReport_keeps_segmented_template_witness :
  let text := lit "1. Scope
all regions
2. Risks" in
  let st := sampleStore (FileParserService.extractSections text) in
  objects (generateReport sampleAmbient (sampleRequest (lit "t1") None) st).2
    1%positive
  = objects st 1%positive.
Proof.
  intros text st.
  apply (generateReport_keeps_segmented_template sampleAmbient
           (sampleRequest (lit "t1") None) st 1%positive text).
  - vm_compute. reflexivity.
  - reflexivity.
Defined.

(** X21. For a template whose sections come from [extractSections], and a file
    name, prompt and locale date without line feed, the lines of a
    completed report that begin with "## " are the titles of the sections,
    each behind "## ", in the order of the sections. *)
Theorem generateReport_headings_segmented env request st r text :
  templates st !! templateId request = Some r ->
  ITemplate.sections (objects st r) = FileParserService.extractSections text ->
  oneLine (ITemplate.filename (objects st r)) = true ->
  oneLine (localeNow env) = true ->
  oneLine (prompt request) = true ->
  IGenerateResponse.status (generateReport env request st).1 = rs_completed ->
  exists c,
    IGenerateResponse.content (generateReport env request st).1 = Some c
    /\ level2Headings c
       = List.map heading (FileParserService.extractSections text).
Proof.
  intros Hr Hsec Hf Hl Hp Hst.
  apply generateReport_completed in Hst as (r1 & Hr1 & _ & Hc & _).
  rewrite Hr in Hr1. injection Hr1 as <-.
  eexists. split; [exact Hc|].
  rewrite Hsec, (sortByOrder_sorted_id _ (extractSections_sorted text)).
  apply reportLines_headings; try assumption.
  apply extractSections_plain.
Qed.

Lemma generateReport_headings_segmented_witness :
  let text := lit "intro
# Plan
first step
[Appendix]" in
  let st := sampleStore (FileParserService.extractSections text) in
  exists c,
    IGenerateResponse.content
      (generateReport sampleAmbient (sampleRequest (lit "t1") None) st).1 = Some c
    /\ level2Headings c
       = List.map heading (FileParserService.extractSections text).
Proof.
  intros text st.
  apply (generateReport_headings_segmented sampleAmbient
           (sampleRequest (lit "t1") None) st 1%positive text);
    vm_compute; reflexivity.
Defined.

End GeneratorMore.

(** * The upload path *)

Section UploadPath.

Import FileParser Upload ReportGeneratorService.

Lemma parseFile_cases ext filePath originalName :
  (fileExtension ext originalName = lit ".pdf"
   /\ ((exists text,
          pdfText ext filePath = Normal text
          /\ parseFile ext filePath originalName =
               Normal {| ITemplate.filename := originalName;
                         ITemplate.type := pdf;
                         ITemplate.content := text;
                         ITemplate.sections :=
                           FileParserService.extractSections text |})
       \/ (exists m, pdfText ext filePath = Throw m
                     /\ parseFile ext filePath originalName = Throw m)))
  \/ (fileExtension ext originalName <> lit ".pdf"
      /\ fileExtension ext originalName = lit ".docx"
      /\ ((exists text,
             docxText ext filePath = Normal text
             /\ parseFile ext filePath originalName =
                  Normal {| ITemplate.filename := originalName;
                            ITemplate.type := docx;
                            ITemplate.content := text;
                            ITemplate.sections :=
                              FileParserService.extractSections text |})
          \/ (exists m, docxText ext filePath = Throw m
                        /\ parseFile ext filePath originalName = Throw m)))
  \/ (fileExtension ext originalName <> lit ".pdf"
      /\ fileExtension ext originalName <> lit ".docx"
      /\ parseFile ext filePath originalName =
           Throw (lit "Unsupported file type: "
                  ++ fileExtension ext originalName)).
Proof.
  unfold parseFile, parsePDF, parseDOCX, fileExtension.
  destruct (decide (toLowerCase ext (extname ext originalName) = lit ".pdf"))
    as [E|E].
  - left. split; [exact E|].
    destruct (pdfText ext filePath) as [text|m]; [left|right]; eexists; by split.
  - right.
    destruct (decide (toLowerCase ext (extname ext originalName) = lit ".docx"))
      as [E'|E'].
    + left. split; [exact E|]. split; [exact E'|].
      destruct (docxText ext filePath) as [text|m]; [left|right]; eexists; by split.
    + right. by repeat split.
Qed.

Lemma parseFile_segmented ext filePath originalName t :
  parseFile ext filePath originalName = Normal t ->
  segmented t /\ ITemplate.filename t = originalName.
Proof.
  destruct (parseFile_cases ext filePath originalName)
    as [(_ & [(text & _ & ->)|(m & _ & ->)])
       |[(_ & _ & [(text & _ & ->)|(m & _ & ->)])|(_ & _ & ->)]];
    intros [= <-] || discriminate; by split.
Qed.

Lemma cleanupFile_spec ext p files q :
  q ∈ cleanupFile ext p files
  <-> q ∈ files /\ (q = p -> unlinkFails ext p = true).
Proof.
  unfold cleanupFile. destruct (decide (p ∈ files)) as [Hin|Hin].
  - destruct (unlinkFails ext p) eqn:U.
    + split; [intros Hq; by split|by intros [Hq _]].
    + rewrite elem_of_difference, elem_of_singleton.
      split; intros [Hq Hne]; (split; [exact Hq|]).
      * intros ->. contradiction.
      * intros ->. by specialize (Hne eq_refl).
  - split; [|by intros [Hq _]]. intros Hq. split; [exact Hq|].
    intros ->. contradiction.
Qed.

Lemma uploadTemplate_cases ext id f sv :
  (exists t,
     parseFile ext (path f) (originalname f) = Normal t
     /\ uploadTemplate ext id (Some f) sv =
          (Normal (id, t),
           {| store :=
                {| objects := <[nextRef sv := t]> (objects (store sv));
                   templates := <[id := nextRef sv]> (templates (store sv));
                   reports := reports (store sv) |};
              nextRef := Pos.succ (nextRef sv);
              disk := cleanupFile ext (path f) (disk sv) |}))
  \/ (exists m,
        parseFile ext (path f) (originalname f) = Throw m
        /\ uploadTemplate ext id (Some f) sv =
             (Throw m,
              {| store := store sv;
                 nextRef := nextRef sv;
                 disk := if truthy (path f)
                         then cleanupFile ext (path f) (disk sv)
                         else disk sv |})).
Proof.
  unfold uploadTemplate.
  destruct (parseFile ext (path f) (originalname f)) as [t|m];
    [left|right]; eexists; by split.
Qed.

(** *** Properties of [uploadTemplate] *)

(** X22. A template is parsed by its lower-cased extension: .pdf and .docx go
    to their parsers, whose error is passed on, and anything else is
    refused by name. What comes back carries the original file name, the
    extracted text, and the segmentation of that text. *)
Theorem parseFile_template ext filePath originalName :
  match parseFile ext filePath originalName with
  | Normal t =>
      ITemplate.filename t = originalName
      /\ ITemplate.sections t
         = FileParserService.extractSections (ITemplate.content t)
      /\ ((ITemplate.type t = pdf
           /\ fileExtension ext originalName = lit ".pdf"
           /\ pdfText ext filePath = Normal (ITemplate.content t))
          \/ (ITemplate.type t = docx
              /\ fileExtension ext originalName = lit ".docx"
              /\ docxText ext filePath = Normal (ITemplate.content t)))
  | Throw m =>
      (fileExtension ext originalName = lit ".pdf"
       /\ pdfText ext filePath = Throw m)
      \/ (fileExtension ext originalName = lit ".docx"
          /\ docxText ext filePath = Throw m)
      \/ (fileExtension ext originalName <> lit ".pdf"
          /\ fileExtension ext originalName <> lit ".docx"
          /\ m = lit "Unsupported file type: "
                 ++ fileExtension ext originalName)
  end.
Proof.
  destruct (parseFile_cases ext filePath originalName)
    as [(E & [(text & Hp & ->)|(m & Hp & ->)])
       |[(E1 & E & [(text & Hp & ->)|(m & Hp & ->)])|(E1 & E2 & ->)]].
  - split; [reflexivity|]. split; [reflexivity|]. left. by repeat split.
  - left. by split.
  - split; [reflexivity|]. split; [reflexivity|]. right. by repeat split.
  - right. left. by split.
  - right. right. by repeat split.
Qed.

(** X29. The interceptor and the parser agree on what is supported: a file the
    [fileFilter] lets through is never refused by [parseFile] for its
    type, so that [parseFile] can only fail with the error of a parser;
    a file the filter turns away would be refused by [parseFile] too. *)
Theorem fileFilter_parseFile ext file filePath :
  match fileFilter ext file with
  | Normal _ =>
      forall m,
        parseFile ext filePath (originalname file) = Throw m ->
        pdfText ext filePath = Throw m \/ docxText ext filePath = Throw m
  | Throw _ =>
      parseFile ext filePath (originalname file)
      = Throw (lit "Unsupported file type: "
               ++ fileExtension ext (originalname file))
  end.
Proof.
  unfold fileFilter. fold (fileExtension ext (originalname file)).
  destruct (parseFile_cases ext filePath (originalname file))
    as [(E & [(text & Hp & ->)|(m & Hp & ->)])
       |[(E1 & E & [(text & Hp & ->)|(m & Hp & ->)])|(E1 & E2 & ->)]];
    rewrite ?E;
    try (rewrite decide_True
           by (rewrite !elem_of_cons; auto));
    try (intros m' [= <-]; auto; fail); try discriminate.
  rewrite decide_False; [reflexivity|].
  rewrite !elem_of_cons, elem_of_nil. intros [?|[?|[]]]; contradiction.
Qed.

(** X23. A successful upload registers the parsed template under the drawn id,
    where [getTemplates] shows it, answers with that id and template, and
    leaves the reports alone. On a consistent server every other
    registered template reads as before. *)
Theorem uploadTemplate_registers ext id f sv t :
  parseFile ext (path f) (originalname f) = Normal t ->
  let (result, sv') := uploadTemplate ext id (Some f) sv in
  result = Normal (id, t)
  /\ getTemplates sv' !! id = Some t
  /\ reports (store sv') = reports (store sv)
  /\ (consistent sv ->
      forall id', id' <> id -> getTemplates sv' !! id' = getTemplates sv !! id').
Proof.
  intros Hp.
  destruct (uploadTemplate_cases ext id f sv)
    as [(t' & Hp' & ->)|(m & Hp' & ->)]; [|congruence].
  rewrite Hp in Hp'. injection Hp' as <-.
  split; [reflexivity|]. unfold getTemplates. cbn [store objects templates].
  split; [|split; [reflexivity|]].
  - rewrite lookup_fmap, lookup_insert_eq. cbn. by rewrite fn_lookup_insert.
  - intros Hc id' Hne. rewrite !lookup_fmap, lookup_insert_ne by congruence.
    destruct (templates (store sv) !! id') as [r|] eqn:Hr; [|reflexivity].
    cbn. f_equal. apply fn_lookup_insert_ne.
    destruct (Hc _ _ Hr) as [Hlt _]. lia.
Qed.

Lemma uploadTemplate_registers_witness :
  let f := sampleFile (lit "Plan.PDF") in
  let t := {| ITemplate.filename := lit "Plan.PDF";
              ITemplate.type := pdf;
              ITemplate.content := lit "1. Scope
all regions
2. Risks";
              ITemplate.sections :=
                FileParserService.extractSections (lit "1. Scope
all regions
2. Risks") |} in
  let (result, sv') :=
    uploadTemplate sampleExternals (lit "t1") (Some f) (start ∅) in
  result = Normal (lit "t1", t)
  /\ getTemplates sv' !! lit "t1" = Some t
  /\ reports (store sv') = reports (store (start ∅))
  /\ (consistent (start ∅) ->
      forall id', id' <> lit "t1" ->
        getTemplates sv' !! id' = getTemplates (start ∅) !! id').
Proof.
  intros f t.
  apply (uploadTemplate_registers sampleExternals (lit "t1") f (start ∅) t).
  vm_compute. reflexivity.
Defined.

(** X24. A failed upload registers nothing: whatever is thrown (no file, an
    extension that is not supported, an error of a parser), the
    registries, the template objects and the next reference are as
    before. *)
Theorem uploadTemplate_failure ext id file sv m :
  (uploadTemplate ext id file sv).1 = Throw m ->
  store (uploadTemplate ext id file sv).2 = store sv
  /\ nextRef (uploadTemplate ext id file sv).2 = nextRef sv
  /\ match file with
     | None => m = lit "No file uploaded"
     | Some f => parseFile ext (path f) (originalname f) = Throw m
     end.
Proof.
  destruct file as [f|]; [|by intros [= <-]].
  destruct (uploadTemplate_cases ext id f sv)
    as [(t' & Hp' & ->)|(m' & Hp' & ->)]; [discriminate|].
  intros [= <-]. by repeat split.
Qed.

Lemma uploadTemplate_failure_witness :
  let file := Some (sampleFile (lit "notes.txt")) in
  store (uploadTemplate sampleExternals (lit "t1") file (start ∅)).2
  = store (start ∅)
  /\ nextRef (uploadTemplate sampleExternals (lit "t1") file (start ∅)).2
     = nextRef (start ∅)
  /\ parseFile sampleExternals (path (sampleFile (lit "notes.txt")))
       (originalname (sampleFile (lit "notes.txt")))
     = Throw (lit "Unsupported file type: .txt").
Proof.
  intros file.
  apply (uploadTemplate_failure sampleExternals (lit "t1") file (start ∅)
           (lit "Unsupported file type: .txt")).
  vm_compute. reflexivity.
Defined.

(** X25. The uploaded file is released on every path: when the file has a path
    and [unlinkSync] does not fail on it, that path is gone from the disk
    after [uploadTemplate], parsed or not, and every other path is on the
    disk exactly when it was before. *)
Theorem uploadTemplate_releases_file ext id f sv :
  truthy (path f) = true ->
  unlinkFails ext (path f) = false ->
  forall q,
    q ∈ disk (uploadTemplate ext id (Some f) sv).2
    <-> q ∈ disk sv /\ q <> path f.
Proof.
  intros Ht Hu q.
  destruct (uploadTemplate_cases ext id f sv)
    as [(t' & _ & ->)|(m' & _ & ->)]; cbn [snd disk]; try rewrite Ht;
    rewrite cleanupFile_spec, Hu;
    (split; intros [Hq Hne]; (split; [exact Hq|]));
    try (intros ->; by specialize (Hne eq_refl)); done.
Qed.

Lemma uploadTemplate_releases_file_witness :
  let f := sampleFile (lit "notes.txt") in
  let q := lit "uploads/keep.pdf" in
  q ∈ disk (uploadTemplate sampleExternals (lit "t1") (Some f)
              (start {[ path f; q ]})).2
  <-> q ∈ disk (start {[ path f; q ]}) /\ q <> path f.
Proof.
  intros f q.
  apply (uploadTemplate_releases_file sampleExternals (lit "t1") f);
    vm_compute; reflexivity.
Defined.

(** *** The served process *)

Lemma segmented_unchanged st r env request :
  templates st !! templateId request = Some r ->
  segmented (objects st r) ->
  forall r', objects (generateReport env request st).2 r' = objects st r'.
Proof.
  intros Hr Hseg r'.
  destruct (generateReport_cases env request st)
    as [[_ ->]|[(r1 & ? & ? & _ & _ & _ & _ & ->)|(r1 & t1 & Hr1 & _ & _ & ->)]];
    try reflexivity.
  cbn [snd objects]. rewrite Hr in Hr1. injection Hr1 as <-.
  destruct (decide (r = r')) as [<-|Hne].
  - rewrite fn_lookup_insert.
    rewrite (sortByOrder_sorted_id (ITemplate.sections (objects st r))).
    + apply setSections_same.
    + rewrite Hseg. apply extractSections_sorted.
  - by rewrite fn_lookup_insert_ne.
Qed.

Lemma generateReport_templates env request st :
  templates (generateReport env request st).2 = templates st.
Proof.
  by destruct (generateReport_cases env request st)
    as [[_ ->]|[(r1 & ? & ? & _ & _ & _ & _ & ->)|(r1 & t1 & _ & _ & _ & ->)]].
Qed.

Lemma generateReport_objects_consistent env request sv :
  consistent sv ->
  forall r,
    objects (generateReport env request (store sv)).2 r = objects (store sv) r.
Proof.
  intros Hc r.
  destruct (templates (store sv) !! templateId request) as [r0|] eqn:Hr.
  - apply (segmented_unchanged _ r0); [exact Hr|]. by apply (Hc _ _ Hr).
  - by rewrite (generateReport_unknown _ _ _ Hr).
Qed.

Lemma consistent_start files : consistent (start files).
Proof. intros id r H. simpl in H. by rewrite lookup_empty in H. Qed.

Lemma consistent_serve sv c : consistent sv -> consistent (serve sv c).
Proof.
  intros Hc. destruct c as [ext id file|env request]; cbn [serve].
  - destruct file as [f|]; [|exact Hc].
    destruct (uploadTemplate_cases ext id f sv)
      as [(t & Hp & ->)|(m & _ & ->)]; [|exact Hc].
    intros id' r. cbn [snd store templates objects nextRef].
    destruct (decide (id = id')) as [<-|Hne].
    + rewrite lookup_insert_eq. intros [= <-]. split; [lia|].
      rewrite fn_lookup_insert. by apply parseFile_segmented in Hp as [Hp _].
    + rewrite lookup_insert_ne by exact Hne. intros Hr.
      destruct (Hc _ _ Hr) as [Hlt Hseg]. split; [lia|].
      rewrite fn_lookup_insert_ne by lia. exact Hseg.
  - intros id r. cbn [store nextRef].
    rewrite generateReport_templates. intros Hr.
    rewrite (generateReport_objects_consistent _ _ _ Hc).
    exact (Hc _ _ Hr).
Qed.

Lemma consistent_served calls files :
  consistent (fold_left serve calls (start files)).
Proof.
  generalize (consistent_start files). generalize (start files).
  induction calls as [|c calls IH]; intros sv Hc; [exact Hc|].
  apply IH, consistent_serve, Hc.
Qed.

(** X26. Whatever uploads and report requests the process has served since its
    start, every template [getTemplates] shows is the segmentation of its
    own content: its section list is not empty and its i-th section has
    order i. *)
Theorem served_templates_segmented calls files id t :
  getTemplates (fold_left serve calls (start files)) !! id = Some t ->
  ITemplate.sections t
  = FileParserService.extractSections (ITemplate.content t)
  /\ ITemplate.sections t <> []
  /\ List.map order (ITemplate.sections t)
     = List.map Z.of_nat (seq 0 (length (ITemplate.sections t))).
Proof.
  unfold getTemplates. rewrite lookup_fmap. intros H.
  destruct (templates _ !! id) as [r|] eqn:Hr; [|discriminate].
  injection H as <-.
  destruct (consistent_served calls files _ _ Hr) as [_ Hseg].
  split; [exact Hseg|]. rewrite Hseg. apply extractSections_numbered.
Qed.

Lemma served_templates_segmented_witness :
  let calls :=
    [ UploadTemplate sampleExternals (lit "t1") (Some (sampleFile (lit "Plan.PDF")));
      GenerateReport sampleAmbient (sampleRequest (lit "t1") None) ] in
  exists t,
    getTemplates (fold_left serve calls (start ∅)) !! lit "t1" = Some t
    /\ ITemplate.sections t
       = FileParserService.extractSections (ITemplate.content t)
    /\ ITemplate.sections t <> []
    /\ List.map order (ITemplate.sections t)
       = List.map Z.of_nat (seq 0 (length (ITemplate.sections t))).
Proof.
  intros calls. eexists. split; [vm_compute; reflexivity|].
  apply (served_templates_segmented calls ∅ (lit "t1")).
  vm_compute. reflexivity.
Defined.

(** X27. In the served process [generateReport] changes no template: the
    sections of every registered template are in ascending order
    already. *)
Theorem served_generateReport_keeps_templates calls files env request :
  let sv := fold_left serve calls (start files) in
  getTemplates (serve sv (GenerateReport env request)) = getTemplates sv.
Proof.
  intros sv. unfold getTemplates. cbn [serve store].
  rewrite generateReport_templates.
  apply map_fmap_ext. intros id r _.
  apply generateReport_objects_consistent, consistent_served.
Qed.

(** X28. A report on a template that was just uploaded: with a context
    [JSON.stringify] accepts, and a file name, prompt and locale date
    without line feed, [generateReport] completes, and the lines of its
    content that begin with "## " are the titles of the template's
    sections, one each and in their order. *)
Theorem upload_then_generate ext id f sv env request t :
  parseFile ext (path f) (originalname f) = Normal t ->
  templateId request = id ->
  serializable (context request) = true ->
  oneLine (originalname f) = true ->
  oneLine (localeNow env) = true ->
  oneLine (prompt request) = true ->
  let st := store (uploadTemplate ext id (Some f) sv).2 in
  exists c,
    (generateReport env request st).1 =
      {| IGenerateResponse.reportId := uuid env;
         IGenerateResponse.status := rs_completed;
         IGenerateResponse.content := Some c;
         IGenerateResponse.error := None |}
    /\ level2Headings c = List.map heading (ITemplate.sections t)
    /\ ITemplate.sections t <> [].
Proof.
  intros Hp Hid Hs Hf Hl Hpr.
  destruct (uploadTemplate_cases ext id f sv)
    as [(t' & Hp' & ->)|(m & Hp' & ->)]; [|congruence].
  rewrite Hp in Hp'. injection Hp' as <-. cbn [snd store].
  set (st := {| objects := _; templates := _; reports := _ |}).
  destruct (parseFile_segmented _ _ _ _ Hp) as [Hseg Hname].
  assert (Hr : templates st !! templateId request = Some (nextRef sv))
    by (rewrite Hid; apply lookup_insert_eq).
  assert (Ho : objects st (nextRef sv) = t) by apply fn_lookup_insert.
  destruct (generateReport_cases env request st)
    as [[Hr1 _]|[(r1 & ? & ? & _ & Hs1 & _)|(r1 & text & Hr1 & _ & Ht & ->)]];
    [congruence|congruence|].
  rewrite Hr in Hr1. injection Hr1 as <-. rewrite Ho in Ht.
  exists text. split; [reflexivity|]. rewrite Ht, Hseg.
  rewrite (sortByOrder_sorted_id _ (extractSections_sorted _)).
  split.
  - apply reportLines_headings; try assumption.
    + by rewrite Hname.
    + apply extractSections_plain.
  - apply extractSections_numbered.
Qed.

Lemma upload_then_generate_witness :
  let f := sampleFile (lit "Plan.PDF") in
  let st := store (uploadTemplate sampleExternals (lit "t1") (Some f) (start ∅)).2 in
  exists c,
    (generateReport sampleAmbient (sampleRequest (lit "t1") None) st).1 =
      {| IGenerateResponse.reportId := uuid sampleAmbient;
         IGenerateResponse.status := rs_completed;
         IGenerateResponse.content := Some c;
         IGenerateResponse.error := None |}
    /\ level2Headings c
       = List.map heading
           (FileParserService.extractSections (lit "1. Scope
all regions
2. Risks"))
    /\ FileParserService.extractSections (lit "1. Scope
all regions
2. Risks") <> [].
Proof.
  intros f.
  apply (upload_then_generate sampleExternals (lit "t1") f (start ∅)
           sampleAmbient (sampleRequest (lit "t1") None)
           {| ITemplate.filename := lit "Plan.PDF";
              ITemplate.type := pdf;
              ITemplate.content := lit "1. Scope
all regions
2. Risks";
              ITemplate.sections :=
                FileParserService.extractSections (lit "1. Scope
all regions
2. Risks") |});
    vm_compute; reflexivity.
Defined.

End UploadPath.

(** * Templates under [generateReport] *)

Section TemplatesKept.

Import FileParser Upload ReportGeneratorService.



End TemplatesKept.
